(** * SVT extractors (youtube_dl/extractor/svt.py)

    A shallow embedding of the SVT extractors: the shared metadata
    normaliser [_extract_metadata], the rendition resolver
    [_extract_video], the [suitable] overrides of the series and page
    extractors, and the node walk of the page extractor.

    Python values that reach this code come out of a JSON decoder, so the
    value type below has the JSON shapes plus dictionaries keyed by any
    hashable scalar (the subtitle map is keyed by whatever the provider put
    in [language]).  Numbers are integers; fractional numbers are outside
    the model.  Exceptions are explicit: every function that can raise
    returns a [result]. *)

From Stdlib Require Import List String Ascii ZArith Bool Lia Permutation.
Import ListNotations.
Open Scope string_scope.
Open Scope list_scope.

(** ** Python values *)

(** Hashable scalars, the keys of a dictionary. *)
Inductive key : Type :=
| KNone
| KBool (b : bool)
| KInt (z : Z)
| KStr (s : string).

#[warnings="-register-all"]
Inductive pyobj : Type :=
| PNone
| PBool (b : bool)
| PInt (z : Z)
| PStr (s : string)
| PList (l : list pyobj)
| PDict (d : list (key * pyobj)).

(** A dictionary is an association list in insertion order; every key
    occurs at most once in a dictionary built by [dict_set]. *)
Definition dict : Type := list (key * pyobj).

(** Python's [==] and [hash] identify [True] with [1] and [False] with [0];
    [key_eqb] is equality of dictionary keys. *)
Definition key_eqb (a b : key) : bool :=
  match a, b with
  | KNone, KNone => true
  | KBool x, KBool y => Bool.eqb x y
  | KInt x, KInt y => Z.eqb x y
  | KStr x, KStr y => String.eqb x y
  | KBool x, KInt y | KInt y, KBool x => Z.eqb y (if x then 1 else 0)%Z
  | _, _ => false
  end.

(** Exceptions raised by the modelled code. *)
Inductive exn : Type :=
| KeyError (k : string)
| AttributeError (attr : string)
| TypeError (what : string)
| ExtractorError (msg : string)
| GeoRestrictedError (msg : string) (countries : list string).

Inductive result (A : Type) : Type :=
| Ok (a : A)
| Raise (e : exn).

Arguments Ok {A} a.
Arguments Raise {A} e.

Definition bind {A B : Type} (m : result A) (f : A -> result B) : result B :=
  match m with
  | Ok a => f a
  | Raise e => Raise e
  end.

Notation "x <- m ;; k" := (bind m (fun x => k))
  (at level 61, m at next level, right associativity).
Notation "' p <- m ;; k" := (bind m (fun x => let p := x in k))
  (at level 61, p pattern, m at next level, right associativity).

(** ** Dictionary operations *)

(** [d.get(k)] as an option: [None] when the key is not in [d]. *)
Fixpoint dict_lookup (k : key) (d : dict) : option pyobj :=
  match d with
  | [] => None
  | (k', v) :: rest => if key_eqb k k' then Some v else dict_lookup k rest
  end.

(** [d[k] = v]: replaces the value in place, or appends a new entry. *)
Fixpoint dict_set (k : key) (v : pyobj) (d : dict) : dict :=
  match d with
  | [] => [(k, v)]
  | (k', v') :: rest =>
      if key_eqb k k' then (k', v) :: rest else (k', v') :: dict_set k v rest
  end.

(** [d.get(k, default)]. *)
Definition dict_get_default (d : dict) (k : string) (default : pyobj) : pyobj :=
  match dict_lookup (KStr k) d with
  | Some v => v
  | None => default
  end.

(** [d.get(k)]. *)
Definition get (d : dict) (k : string) : pyobj := dict_get_default d k PNone.

(** [x.get]: only a dictionary has the method. *)
Definition as_dict (x : pyobj) : result dict :=
  match x with
  | PDict d => Ok d
  | _ => Raise (AttributeError "get")
  end.

(** [x[k]] for a text key [k]. *)
Definition getitem (x : pyobj) (k : string) : result pyobj :=
  match x with
  | PDict d =>
      match dict_lookup (KStr k) d with
      | Some v => Ok v
      | None => Raise (KeyError k)
      end
  | PNone | PBool _ | PInt _ => Raise (TypeError "object is not subscriptable")
  | PStr _ | PList _ => Raise (TypeError "indices must be integers")
  end.

(** Truth value of an object, as [if x:] tests it. *)
Definition truthy (x : pyobj) : bool :=
  match x with
  | PNone => false
  | PBool b => b
  | PInt z => negb (Z.eqb z 0)
  | PStr s => negb (String.eqb s EmptyString)
  | PList l => match l with [] => false | _ => true end
  | PDict d => match d with [] => false | _ => true end
  end.

(** [a or b]. *)
Definition py_or (a b : pyobj) : pyobj := if truthy a then a else b.

Definition key_to_obj (k : key) : pyobj :=
  match k with
  | KNone => PNone
  | KBool b => PBool b
  | KInt z => PInt z
  | KStr s => PStr s
  end.

(** A value used as a dictionary key: lists and dictionaries are
    unhashable. *)
Definition hashable (x : pyobj) : result key :=
  match x with
  | PNone => Ok KNone
  | PBool b => Ok (KBool b)
  | PInt z => Ok (KInt z)
  | PStr s => Ok (KStr s)
  | PList _ | PDict _ => Raise (TypeError "unhashable type")
  end.

(** [x == 'text']. *)
Definition eq_str (x : pyobj) (s : string) : bool :=
  match x with
  | PStr t => String.eqb t s
  | _ => false
  end.

Fixpoint chars (s : string) : list pyobj :=
  match s with
  | EmptyString => []
  | String c rest => PStr (String c EmptyString) :: chars rest
  end.

(** [for x in v]: the elements a [for] loop visits. *)
Definition py_iter (v : pyobj) : result (list pyobj) :=
  match v with
  | PList l => Ok l
  | PDict d => Ok (map (fun kv => key_to_obj (fst kv)) d)
  | PStr s => Ok (chars s)
  | PNone | PBool _ | PInt _ => Raise (TypeError "object is not iterable")
  end.

(** [s.replace(old, new)] for a non-empty [old]: occurrences are replaced
    left to right without overlap.  [skip] counts the characters of a
    matched occurrence still to be dropped. *)
Fixpoint replace_from (old new : string) (skip : nat) (s : string) : string :=
  match s with
  | EmptyString => EmptyString
  | String c rest =>
      match skip with
      | S n => replace_from old new n rest
      | O =>
          if String.prefix old s
          then (new ++ replace_from old new (String.length old - 1) rest)%string
          else String c (replace_from old new 0 rest)
      end
  end.

Definition str_replace (old new s : string) : string := replace_from old new 0 s.

(** Modelled from the spec: [dict_get] of youtube_dl/utils.py, which is not
    part of the extractor's file.  A priority list of keys is tried in
    order and the first present one wins; a key whose value is [None]
    counts as absent, and so does a false value unless the caller passes
    [skip_false_values=False]. *)
Fixpoint dict_get (d : dict) (keys : list string) (default : pyobj)
    (skip_false_values : bool) : pyobj :=
  match keys with
  | [] => default
  | k :: rest =>
      match dict_lookup (KStr k) d with
      | None => dict_get d rest default skip_false_values
      | Some PNone => dict_get d rest default skip_false_values
      | Some v =>
          if skip_false_values && negb (truthy v)
          then dict_get d rest default skip_false_values
          else v
      end
  end.

(** Modelled from the spec: [try_get] of youtube_dl/utils.py, which is not
    part of the extractor's file.  The getters are tried in order; one
    that raises is skipped, and so is one whose value fails the expected
    type test when a test is given.  The getters used here only subscript
    their argument. *)
Fixpoint try_get (src : pyobj) (getters : list (pyobj -> result pyobj))
    (expected_type : option (pyobj -> bool)) : pyobj :=
  match getters with
  | [] => PNone
  | g :: rest =>
      match g src with
      | Raise _ => try_get src rest expected_type
      | Ok v =>
          match expected_type with
          | None => v
          | Some is_type => if is_type v then v else try_get src rest expected_type
          end
      end
  end.

(** [isinstance(v, dict)] and [isinstance(v, list)]. *)
Definition is_dict (v : pyobj) : bool :=
  match v with PDict _ => true | _ => false end.

Definition is_list (v : pyobj) : bool :=
  match v with PList _ => true | _ => false end.

(** A value counts as empty for the merge when it is [None], the empty
    text or an empty container.  The numbers [0] and [False] are values:
    an age limit of 0 has to reach the merged item. *)
Definition is_empty (v : pyobj) : bool :=
  match v with
  | PNone => true
  | PStr s => String.eqb s EmptyString
  | PList l => match l with [] => true | _ => false end
  | PDict d => match d with [] => true | _ => false end
  | PBool _ | PInt _ => false
  end.

(** Modelled from the spec: [merge_dicts] of youtube_dl/utils.py, which is
    not part of the extractor's file.  The spec gives its semantics for
    [merge_dicts(base, derived)]: a key that is present and non-empty in
    the derived fields overwrites [base]; any other key of [base] is left
    as it is, never nulled. *)
Fixpoint merge_dicts (base derived : dict) : dict :=
  match derived with
  | [] => base
  | (k, v) :: rest =>
      merge_dicts (if is_empty v then base else dict_set k v base) rest
  end.

(** ** Renditions, decoder calls and subtitle maps *)

(** A call to one of the manifest decoders, with the arguments the
    extractor passes. *)
Inductive call : Type :=
| HLS (manifest_url : pyobj) (video_id ext entry_protocol : string) (m3u8_id : pyobj)
| HDS (manifest_url video_id : string) (f4m_id : pyobj)
| DASH (manifest_url : pyobj) (video_id : string) (mpd_id : pyobj).

(** The subtitle map while it is built: language to tracks, in insertion
    order. *)
Definition subtitle_map : Type := list (key * list pyobj).

Fixpoint tracks_of (lang : key) (m : subtitle_map) : option (list pyobj) :=
  match m with
  | [] => None
  | (k, l) :: rest => if key_eqb lang k then Some l else tracks_of lang rest
  end.

(** [m.setdefault(lang, []).append(track)]. *)
Fixpoint setdefault_append (lang : key) (track : pyobj) (m : subtitle_map)
    : subtitle_map :=
  match m with
  | [] => [(lang, [track])]
  | (k, l) :: rest =>
      if key_eqb lang k then (k, l ++ [track]) :: rest
      else (k, l) :: setdefault_append lang track rest
  end.

Definition subtitle_map_obj (m : subtitle_map) : pyobj :=
  PDict (map (fun kl => (fst kl, PList (snd kl))) m).

Definition _GEO_COUNTRIES : list string := ["SE"].

Module SVTBaseIE.
Section Collaborators.

(** Helpers of youtube_dl/utils.py and methods of the extractor base class
    that live outside this file.  [determine_ext] gives [None] where the
    helper raises on an argument that is not a text; [_sort_formats] gives
    [None] where it refuses the list.  The three manifest decoders are
    called with [fatal=False] and return the renditions they found. *)
Variable determine_ext : pyobj -> option string.
Variable int_or_none : pyobj -> pyobj.
Variable unified_timestamp : pyobj -> pyobj.
Variable _extract_m3u8_formats :
  pyobj -> string -> string -> string -> pyobj -> list pyobj.
Variable _extract_f4m_formats : string -> string -> pyobj -> list pyobj.
Variable _extract_mpd_formats : pyobj -> string -> pyobj -> list pyobj.
Variable _sort_formats : list pyobj -> option (list pyobj).

Definition ext_of (url : pyobj) : result string :=
  match determine_ext url with
  | Some e => Ok e
  | None => Raise (TypeError "determine_ext")
  end.

(** *** _extract_metadata *)

(** The [thumbnail] local: a true value must have [replace]. *)
Definition thumbnail_of (video_info : dict) : result pyobj :=
  let thumbnail := get video_info "thumbnail" in
  if truthy thumbnail then
    match thumbnail with
    | PStr s => Ok (PStr (str_replace "{format}" "extralarge" s))
    | _ => Raise (AttributeError "replace")
    end
  else Ok thumbnail.

(** The [age_limit] local. *)
Definition age_limit_of (video_info : dict) : pyobj :=
  let adult :=
    dict_get video_info ["inappropriateForChildren"; "blockedForChildren"]
      PNone false in
  match adult with
  | PNone => PNone
  | _ => if truthy adult then PInt 18 else PInt 0
  end.

(** The dictionary literal handed to [merge_dicts]. *)
Definition metadata_fields (video_info : dict) : result dict :=
  let title := get video_info "title" in
  let series := get video_info "programTitle" in
  let season_number := int_or_none (get video_info "season") in
  let episode := get video_info "episodeTitle" in
  let episode_number := int_or_none (get video_info "episodeNumber") in
  thumbnail <- thumbnail_of video_info ;;
  let description := get video_info "description" in
  let timestamp :=
    unified_timestamp
      (try_get (PDict video_info)
         [ (fun x => getitem x "validFrom");
           (fun x => r <- getitem x "rights" ;; getitem r "validFrom") ]
         None) in
  let duration :=
    int_or_none
      (dict_get video_info ["materialLength"; "contentDuration"] PNone true) in
  let age_limit := age_limit_of video_info in
  Ok [ (KStr "title", title);
       (KStr "thumbnail", thumbnail);
       (KStr "description", description);
       (KStr "timestamp", timestamp);
       (KStr "duration", duration);
       (KStr "age_limit", age_limit);
       (KStr "series", series);
       (KStr "season_number", season_number);
       (KStr "episode", episode);
       (KStr "episode_number", episode_number) ].

Definition _extract_metadata (info video_info : dict) : result dict :=
  fields <- metadata_fields video_info ;;
  Ok (merge_dicts info fields).

(** *** _extract_video *)

Definition is_live_of (video_info : dict) : pyobj :=
  dict_get video_info ["live"; "simulcast"] (PBool false) true.

Definition m3u8_protocol_of (is_live : pyobj) : string :=
  if truthy is_live then "m3u8" else "m3u8_native".

Definition player_type_of (vr : dict) : pyobj :=
  py_or (get vr "playerType") (get vr "format").

(** One turn of the loop over [videoReferences]: the renditions the
    reference adds to [formats] and the decoder calls it makes. *)
Definition extract_ref (is_live : pyobj) (video_id : string) (vr : pyobj)
    : result (list pyobj * list call) :=
  d <- as_dict vr ;;
  let player_type := player_type_of d in
  vurl <- getitem vr "url" ;;
  ext <- ext_of vurl ;;
  if String.eqb ext "m3u8" then
    let protocol := m3u8_protocol_of is_live in
    Ok (_extract_m3u8_formats vurl video_id "mp4" protocol player_type,
        [HLS vurl video_id "mp4" protocol player_type])
  else if String.eqb ext "f4m" then
    match vurl with
    | PStr u =>
        let manifest := (u ++ "?hdcore=3.3.0")%string in
        Ok (_extract_f4m_formats manifest video_id player_type,
            [HDS manifest video_id player_type])
    | _ => Raise (TypeError "unsupported operand type(s) for +")
    end
  else if String.eqb ext "mpd" then
    if eq_str player_type "dashhbbtv" then
      Ok (_extract_mpd_formats vurl video_id player_type,
          [DASH vurl video_id player_type])
    else Ok ([], [])
  else
    Ok ([PDict [(KStr "format_id", player_type); (KStr "url", vurl)]], []).

(** The loop, threading [formats] and the log of decoder calls. *)
Fixpoint extract_refs (is_live : pyobj) (video_id : string)
    (refs : list pyobj) (formats : list pyobj) (calls : list call)
    : result (list pyobj * list call) :=
  match refs with
  | [] => Ok (formats, calls)
  | vr :: rest =>
      '(fs, cs) <- extract_ref is_live video_id vr ;;
      extract_refs is_live video_id rest (formats ++ fs) (calls ++ cs)
  end.

Definition extract_formats (video_info : dict) (video_id : string)
    : result (list pyobj * list call) :=
  let is_live := is_live_of video_info in
  refs_obj <- getitem (PDict video_info) "videoReferences" ;;
  refs <- py_iter refs_obj ;;
  extract_refs is_live video_id refs [] [].

(** [video_info.get('rights', {}).get('geoBlockedSweden')], as a truth
    value. *)
Definition geo_blocked (video_info : dict) : result bool :=
  rights <- as_dict (dict_get_default video_info "rights" (PDict [])) ;;
  Ok (truthy (get rights "geoBlockedSweden")).

Definition geo_check (video_info : dict) (formats : list pyobj) : result unit :=
  match formats with
  | [] =>
      blocked <- geo_blocked video_info ;;
      if blocked
      then Raise (GeoRestrictedError "This video is only available in Sweden"
                    _GEO_COUNTRIES)
      else Ok tt
  | _ :: _ => Ok tt
  end.

Definition sort_formats (formats : list pyobj) : result (list pyobj) :=
  match _sort_formats formats with
  | Some sorted => Ok sorted
  | None => Raise (ExtractorError "_sort_formats")
  end.

(** The loop over the subtitle references. *)
Fixpoint subtitles_loop (srs : list pyobj) (subtitles : subtitle_map)
    : result subtitle_map :=
  match srs with
  | [] => Ok subtitles
  | sr :: rest =>
      d <- as_dict sr ;;
      let subtitle_url := get d "url" in
      let subtitle_lang := dict_get_default d "language" (PStr "sv") in
      if truthy subtitle_url then
        ext <- ext_of subtitle_url ;;
        if String.eqb ext "m3u8" then subtitles_loop rest subtitles
        else
          lang <- hashable subtitle_lang ;;
          subtitles_loop rest
            (setdefault_append lang (PDict [(KStr "url", subtitle_url)])
               subtitles)
      else subtitles_loop rest subtitles
  end.

Definition extract_subtitles (video_info : dict) : result subtitle_map :=
  let subtitle_references :=
    dict_get video_info ["subtitles"; "subtitleReferences"] PNone true in
  match subtitle_references with
  | PList srs => subtitles_loop srs []
  | _ => Ok []
  end.

(** The whole method; the second component is the log of decoder calls. *)
Definition _extract_video (video_info : dict) (video_id : string)
    : result (dict * list call) :=
  let is_live := is_live_of video_info in
  '(formats, calls) <- extract_formats video_info video_id ;;
  _ <- geo_check video_info formats ;;
  formats <- sort_formats formats ;;
  subtitles <- extract_subtitles video_info ;;
  info <- _extract_metadata
            [ (KStr "id", PStr video_id);
              (KStr "formats", PList formats);
              (KStr "subtitles", subtitle_map_obj subtitles);
              (KStr "is_live", is_live) ]
            video_info ;;
  Ok (info, calls).

End Collaborators.
End SVTBaseIE.

(** ** URL matchers *)

(** Modelled from the spec: [suitable] of the extractor base class
    (youtube_dl/extractor/common.py), which is not part of the extractor's
    file: an extractor claims a URL when the URL matches its [_VALID_URL]
    pattern.  [re_match pattern url] stands for
    [re.match(pattern, url) is not None]. *)
Definition InfoExtractor_suitable (re_match : string -> string -> bool)
    (_VALID_URL url : string) : bool :=
  re_match _VALID_URL url.

Module SVTIE.
Definition _VALID_URL : string :=
  "https?://(?:www\.)?svt\.se/wd\?(?:.*?&)?widgetId=(?P<widget_id>\d+)&.*?\barticleId=(?P<id>\d+)".

Definition suitable (re_match : string -> string -> bool) (url : string) : bool :=
  InfoExtractor_suitable re_match _VALID_URL url.
End SVTIE.

Module SVTPlayIE.
Definition _VALID_URL : string :=
  "(?x)
                    (?:
                        svt:(?P<svt_id>[^/?#&]+)|
                        https?://(?:www\.)?(?:svtplay|oppetarkiv)\.se/(?:video|klipp|kanaler)/(?P<id>[^/?#&]+)
                    )
                    ".

Definition suitable (re_match : string -> string -> bool) (url : string) : bool :=
  InfoExtractor_suitable re_match _VALID_URL url.

Section Collaborators.

Variable int_or_none : pyobj -> pyobj.
Variable unified_timestamp : pyobj -> pyobj.

(** [try_get(data, lambda x: x['videoPage']['video'], dict)]. *)
Definition video_page_video (data : pyobj) : pyobj :=
  try_get data
    [ (fun x => r <- getitem x "videoPage" ;; getitem r "video") ]
    (Some is_dict).

(** The part of [_real_extract] that layers the page's [videoPage.video]
    on the item built so far ([if data: ... if video_data: ...]).  The
    value of [try_get] is a dictionary or [None], and an empty dictionary
    is false. *)
Definition layer_video_page (data : pyobj) (info_dict : dict) : result dict :=
  if truthy data then
    match video_page_video data with
    | PDict (entry :: more) =>
        SVTBaseIE._extract_metadata int_or_none unified_timestamp
          info_dict (entry :: more)
    | _ => Ok info_dict
    end
  else Ok info_dict.

End Collaborators.
End SVTPlayIE.

Module SVTSeriesIE.
Definition _VALID_URL : string :=
  "https?://(?:www\.)?svtplay\.se/(?P<id>[^/?&#]+)(?:.+?\btab=(?P<season_slug>[^&#]+))?".

Definition suitable (re_match : string -> string -> bool) (url : string) : bool :=
  if SVTIE.suitable re_match url || SVTPlayIE.suitable re_match url
  then false
  else InfoExtractor_suitable re_match _VALID_URL url.
End SVTSeriesIE.

(** ** The page extractor *)

(** What [url_result(url, ie, video_id)] builds: a forward reference to
    another extractor. *)
Record url_result : Type := mk_url_result {
  ur_url : string;
  ur_ie_key : string;
  ur_id : string
}.

(** What [playlist_result(entries, playlist_id, playlist_title)] builds. *)
Record playlist_result : Type := mk_playlist_result {
  pl_entries : list url_result;
  pl_id : pyobj;
  pl_title : pyobj
}.

Module SVTPageIE.
Definition _VALID_URL : string :=
  "https?://(?:www\.)?svt\.se/(?P<path>(?:[^/]+/)*(?P<id>[^/?&#]+))".

Definition suitable (re_match : string -> string -> bool) (url : string) : bool :=
  if SVTIE.suitable re_match url
  then false
  else InfoExtractor_suitable re_match _VALID_URL url.

Section Collaborators.

(** [compat_str] is the text constructor; [str_or_none] and
    [strip_or_none] are helpers of youtube_dl/utils.py. *)
Variable compat_str : pyobj -> string.
Variable str_or_none : pyobj -> pyobj.
Variable strip_or_none : pyobj -> pyobj.

(** [SVTPlayIE.ie_key()]. *)
Definition SVTPlayIE_ie_key : string := "SVTPlay".

(** [x in ('VIDEOCLIP', 'VIDEOEPISODE')]. *)
Definition is_video_type (t : pyobj) : bool :=
  eq_str t "VIDEOCLIP" || eq_str t "VIDEOEPISODE".

(** The local function [_process_content]; [entries] is the list it
    appends to. *)
Definition _process_content (content : pyobj) (entries : list url_result)
    : result (list url_result) :=
  d <- as_dict content ;;
  if is_video_type (get d "_type") then
    image <- getitem content "image" ;;
    svt_id <- getitem image "svtId" ;;
    let video_id := compat_str svt_id in
    Ok (entries ++ [mk_url_result ("svt:" ++ video_id)%string SVTPlayIE_ie_key video_id])
  else Ok entries.

(** [for media in article.get('media', []): _process_content(media)]. *)
Fixpoint media_loop (media : list pyobj) (entries : list url_result)
    : result (list url_result) :=
  match media with
  | [] => Ok entries
  | m :: rest =>
      entries' <- _process_content m entries ;;
      media_loop rest entries'
  end.

(** [for obj in article.get('structuredBody', []):
       _process_content(obj.get('content') or {})]. *)
Fixpoint body_loop (body : list pyobj) (entries : list url_result)
    : result (list url_result) :=
  match body with
  | [] => Ok entries
  | obj :: rest =>
      d <- as_dict obj ;;
      entries' <- _process_content (py_or (get d "content") (PDict [])) entries ;;
      body_loop rest entries'
  end.

(** [_real_extract] from the point where [article] has been fetched. *)
Definition _real_extract_article (article : pyobj) : result playlist_result :=
  a <- as_dict article ;;
  media <- py_iter (dict_get_default a "media" (PList [])) ;;
  entries <- media_loop media [] ;;
  body <- py_iter (dict_get_default a "structuredBody" (PList [])) ;;
  entries <- body_loop body entries ;;
  Ok (mk_playlist_result entries
        (str_or_none (get a "id")) (strip_or_none (get a "title"))).

End Collaborators.
End SVTPageIE.

(** ** Executable stand-ins for the collaborators

    The properties below hold for any collaborators.  To run the model on
    concrete inputs, these stand-ins are plugged in. *)
Module Sample.

Definition is_alnum (c : ascii) : bool :=
  let n := nat_of_ascii c in
  ((48 <=? n) && (n <=? 57) || (65 <=? n) && (n <=? 90)
   || (97 <=? n) && (n <=? 122))%nat.

Fixpoint all_alnum (s : string) : bool :=
  match s with
  | EmptyString => true
  | String c rest => is_alnum c && all_alnum rest
  end.

Fixpoint before_query (s : string) : string :=
  match s with
  | EmptyString => EmptyString
  | String c rest =>
      if Ascii.eqb c "?"%char then EmptyString else String c (before_query rest)
  end.

Fixpoint after_last_dot (s : string) : option string :=
  match s with
  | EmptyString => None
  | String c rest =>
      match after_last_dot rest with
      | Some e => Some e
      | None => if Ascii.eqb c "."%char then Some rest else None
      end
  end.

(** The extension of a URL: the alphanumeric text after the last dot of
    the part before the query string, [unknown_video] when there is none.
    [None] has no extension either; any other value is refused. *)
Definition determine_ext (url : pyobj) : option string :=
  match url with
  | PNone => Some "unknown_video"
  | PStr s =>
      match after_last_dot (before_query s) with
      | Some (String c rest) =>
          if all_alnum (String c rest) then Some (String c rest)
          else Some "unknown_video"
      | _ => Some "unknown_video"
      end
  | _ => None
  end.

Definition int_or_none (v : pyobj) : pyobj :=
  match v with
  | PInt z => PInt z
  | PBool b => PInt (if b then 1 else 0)
  | _ => PNone
  end.

Definition unified_timestamp (v : pyobj) : pyobj := PNone.

(** Each decoder finds one rendition, named after the manifest. *)
Definition _extract_m3u8_formats (url : pyobj) (video_id ext protocol : string)
    (m3u8_id : pyobj) : list pyobj :=
  [PDict [(KStr "format_id", m3u8_id); (KStr "url", url);
          (KStr "ext", PStr ext); (KStr "protocol", PStr protocol)]].

Definition _extract_f4m_formats (url video_id : string) (f4m_id : pyobj)
    : list pyobj :=
  [PDict [(KStr "format_id", f4m_id); (KStr "url", PStr url)]].

Definition _extract_mpd_formats (url : pyobj) (video_id : string)
    (mpd_id : pyobj) : list pyobj :=
  [PDict [(KStr "format_id", mpd_id); (KStr "url", url)]].

(** The ranking keeps the order it is given and refuses an empty list. *)
Definition _sort_formats (formats : list pyobj) : option (list pyobj) :=
  match formats with
  | [] => None
  | _ => Some formats
  end.

(** A matcher that knows the widget URL and the [svt:] scheme only. *)
Definition re_match (pattern url : string) : bool :=
  (String.eqb pattern SVTIE._VALID_URL
   && String.prefix "http://www.svt.se/wd?widgetId=" url)
  || (String.eqb pattern SVTPlayIE._VALID_URL && String.prefix "svt:" url)
  || (String.eqb pattern SVTPageIE._VALID_URL
      && String.prefix "http://www.svt.se/" url)
  || (String.eqb pattern SVTSeriesIE._VALID_URL
      && String.prefix "https://www.svtplay.se/" url).

Definition compat_str (v : pyobj) : string :=
  match v with
  | PStr s => s
  | PNone => "None"
  | PBool true => "True"
  | PBool false => "False"
  | _ => "?"
  end.

Definition str_or_none (v : pyobj) : pyobj :=
  match v with
  | PNone => PNone
  | _ => PStr (compat_str v)
  end.

Definition strip_or_none (v : pyobj) : pyobj :=
  match v with
  | PStr s => if String.eqb s EmptyString then PNone else PStr s
  | _ => PNone
  end.

Definition _extract_video :=
  SVTBaseIE._extract_video determine_ext int_or_none unified_timestamp
    _extract_m3u8_formats _extract_f4m_formats _extract_mpd_formats
    _sort_formats.

Definition _extract_metadata :=
  SVTBaseIE._extract_metadata int_or_none unified_timestamp.

(** Sample inputs. *)
Definition ref_mp4 : pyobj :=
  PDict [(KStr "url", PStr "http://cdn.example/v.mp4");
         (KStr "playerType", PStr "flash")].

Definition ref_webm : pyobj :=
  PDict [(KStr "url", PStr "http://cdn.example/v.webm");
         (KStr "format", PStr "web")].

Definition ref_hls : pyobj :=
  PDict [(KStr "url", PStr "http://cdn.example/master.m3u8?cc=1");
         (KStr "playerType", PStr "ios")].

Definition ref_dash (player_type : string) : dict :=
  [(KStr "url", PStr "http://cdn.example/manifest.mpd");
   (KStr "playerType", PStr player_type)].

Definition video_direct : dict :=
  [(KStr "title", PStr "Clip");
   (KStr "videoReferences", PList [ref_mp4; ref_webm])].

Definition video_blocked : dict :=
  [(KStr "videoReferences", PList [PDict (ref_dash "dash")]);
   (KStr "rights", PDict [(KStr "geoBlockedSweden", PBool true)])].

Definition video_live : dict :=
  [(KStr "live", PBool false); (KStr "simulcast", PBool true);
   (KStr "videoReferences", PList [ref_hls])].

Definition video_rated : dict :=
  [(KStr "inappropriateForChildren", PBool false);
   (KStr "blockedForChildren", PBool true)].

Definition subtitle_refs : list pyobj :=
  [PDict [(KStr "url", PStr "http://cdn.example/sv.wsrt")];
   PDict [(KStr "url", PStr "http://cdn.example/sv.m3u8")];
   PDict [(KStr "url", PStr "http://cdn.example/en.vtt");
          (KStr "language", PStr "en")];
   PDict [(KStr "url", PStr EmptyString); (KStr "language", PStr "fi")];
   PDict [(KStr "url", PStr "http://cdn.example/sv.vtt");
          (KStr "language", PStr "sv")]].

Definition video_subtitled : dict :=
  [(KStr "videoReferences", PList [ref_mp4]);
   (KStr "subtitles", PList []);
   (KStr "subtitleReferences", PList subtitle_refs)].

Definition video_no_url : dict :=
  [(KStr "videoReferences",
    PList ([ref_mp4] ++ PDict [(KStr "playerType", PStr "flash")] :: [ref_hls]));
   (KStr "rights", PDict [(KStr "geoBlockedSweden", PBool true)])].

Definition video_bad_entry : dict :=
  [(KStr "videoReferences", PList [PList []; PDict []])].

Definition item_from_api : dict :=
  [(KStr "id", PStr "KyVERRZ");
   (KStr "title", PStr "API title");
   (KStr "description", PStr "API description");
   (KStr "duration", PInt 820)].

Definition page_video : dict :=
  [(KStr "title", PStr "Page title");
   (KStr "description", PStr EmptyString);
   (KStr "thumbnail", PStr "http://img.example/{format}/1.jpg")].

Definition page_data : pyobj :=
  PDict [(KStr "videoPage", PDict [(KStr "video", PDict page_video)])].

Definition node_clip : pyobj :=
  PDict [(KStr "_type", PStr "VIDEOCLIP");
         (KStr "image", PDict [(KStr "svtId", PStr "jXvk42E")])].

Definition node_without_image : pyobj :=
  PDict [(KStr "_type", PStr "VIDEOEPISODE")].

Definition article : dict :=
  [(KStr "id", PInt 25298267);
   (KStr "title", PStr "Bakom masken");
   (KStr "media", PList [node_clip; node_without_image])].

End Sample.

(** ** Vocabulary of the statements *)

(** Keys up to Python's identification of booleans with 0 and 1. *)
Definition key_norm (k : key) : key :=
  match k with
  | KBool b => KInt (if b then 1 else 0)
  | _ => k
  end.

(** A flag read from the raw mapping: a boolean, or absent (or null),
    which counts as false. *)
Definition flag_value (v : pyobj) (b : bool) : Prop :=
  v = PBool b \/ (v = PNone /\ b = false).

(** A reference whose URL has an extension other than the three manifest
    extensions. *)
Definition non_adaptive (determine_ext : pyobj -> option string) (vr : pyobj)
    : Prop :=
  exists d u e,
    vr = PDict d /\ dict_lookup (KStr "url") d = Some u
    /\ determine_ext u = Some e
    /\ e <> "m3u8" /\ e <> "f4m" /\ e <> "mpd".

(** The direct progressive rendition of a reference: its URL, tagged with
    its player type. *)
Definition direct_rendition (vr : pyobj) : pyobj :=
  match vr with
  | PDict d =>
      PDict [(KStr "format_id", SVTBaseIE.player_type_of d);
             (KStr "url", get d "url")]
  | _ => PNone
  end.

(** A reference the loop processes without error: a mapping whose URL is
    a text that [determine_ext] accepts. *)
Definition well_formed_ref (determine_ext : pyobj -> option string)
    (vr : pyobj) : Prop :=
  exists d u e,
    vr = PDict d /\ dict_lookup (KStr "url") d = Some (PStr u)
    /\ determine_ext (PStr u) = Some e.

(** No two entries of a dictionary literal have the same key. *)
Fixpoint distinct_keys (d : dict) : bool :=
  match d with
  | [] => true
  | (k, _) :: rest =>
      forallb (fun kv => negb (key_eqb k (fst kv))) rest && distinct_keys rest
  end.

(** The language of a subtitle reference: [sv] when the key is missing. *)
Definition entry_language (d : dict) : pyobj :=
  match dict_lookup (KStr "language") d with
  | Some lang => lang
  | None => PStr "sv"
  end.

(** A URL whose extension is [m3u8]. *)
Definition is_m3u8 (determine_ext : pyobj -> option string) (url : pyobj)
    : bool :=
  match determine_ext url with
  | Some e => String.eqb e "m3u8"
  | None => false
  end.

Definition has_language (lang : key) (d : dict) : bool :=
  match hashable (entry_language d) with
  | Ok k => key_eqb lang k
  | Raise _ => false
  end.

(** The tracks of one language, as the spec describes them: the entries
    with a non-empty URL that is not an [m3u8] manifest and with that
    language, in the order of the references. *)
Fixpoint language_tracks (determine_ext : pyobj -> option string)
    (lang : key) (srs : list pyobj) : list pyobj :=
  match srs with
  | [] => []
  | PDict d :: rest =>
      let url := get d "url" in
      if truthy url && negb (is_m3u8 determine_ext url) && has_language lang d
      then PDict [(KStr "url", url)] :: language_tracks determine_ext lang rest
      else language_tracks determine_ext lang rest
  | _ :: rest => language_tracks determine_ext lang rest
  end.

(** A subtitle reference the loop processes without error: a mapping
    whose URL, when non-empty, is accepted by [determine_ext] and whose
    language, when the entry is kept, can key a dictionary. *)
Definition well_formed_subtitle_ref (determine_ext : pyobj -> option string)
    (sr : pyobj) : Prop :=
  exists d,
    sr = PDict d
    /\ (truthy (get d "url") = true ->
        exists e,
          determine_ext (get d "url") = Some e
          /\ (e <> "m3u8" -> exists k, hashable (entry_language d) = Ok k)).

(** The tracks of a language after the loop: those it had, followed by
    the new ones. *)
Definition extend_tracks (old : option (list pyobj)) (new : list pyobj)
    : option (list pyobj) :=
  match old, new with
  | None, [] => None
  | None, _ => Some new
  | Some l, _ => Some (l ++ new)
  end.

(** A content node of a video type that lacks [image], or whose [image]
    mapping lacks [svtId]. *)
Definition malformed_video_node (content : pyobj) : Prop :=
  exists d,
    content = PDict d
    /\ SVTPageIE.is_video_type (get d "_type") = true
    /\ (dict_lookup (KStr "image") d = None
        \/ exists image,
             dict_lookup (KStr "image") d = Some (PDict image)
             /\ dict_lookup (KStr "svtId") image = None).

(** An article that carries a given node, in its [media] list or as the
    [content] of an entry of its [structuredBody] list. *)
Definition article_has_node (a : dict) (node : pyobj) : Prop :=
  (exists media,
     dict_lookup (KStr "media") a = Some (PList media) /\ In node media)
  \/ (exists body o,
        dict_lookup (KStr "structuredBody") a = Some (PList body)
        /\ In (PDict o) body
        /\ dict_lookup (KStr "content") o = Some node).

(** * The remaining methods of the extractors *)

(** [x['a']['b']...]: subscripting along a path of text keys. *)
Fixpoint getpath (x : pyobj) (path : list string) : result pyobj :=
  match path with
  | [] => Ok x
  | k :: rest => v <- getitem x k ;; getpath v rest
  end.

(** [isinstance(v, compat_str)]. *)
Definition is_str (v : pyobj) : bool :=
  match v with PStr _ => true | _ => false end.

(** What [playlist_result(entries, playlist_id, playlist_title,
    playlist_description)] builds. *)
Record described_playlist : Type := mk_described_playlist {
  dp_entries : list url_result;
  dp_id : pyobj;
  dp_title : pyobj;
  dp_description : pyobj
}.

Module SVTBaseIE_untyped.
Section Collaborators.

Variable determine_ext : pyobj -> option string.
Variable int_or_none : pyobj -> pyobj.
Variable unified_timestamp : pyobj -> pyobj.
Variable _extract_m3u8_formats :
  pyobj -> string -> string -> string -> pyobj -> list pyobj.
Variable _extract_f4m_formats : string -> string -> pyobj -> list pyobj.
Variable _extract_mpd_formats : pyobj -> string -> pyobj -> list pyobj.
Variable _sort_formats : list pyobj -> option (list pyobj).

(** [_extract_video] on a value that need not be a mapping.  On [None],
    a boolean or a number the membership test of [dict_get] fails; on a
    text or a list the subscript [video_info['videoReferences']] does:
    a [TypeError] in every case. *)
Definition _extract_video (video_info : pyobj) (video_id : string)
    : result (dict * list call) :=
  match video_info with
  | PDict d =>
      SVTBaseIE._extract_video determine_ext int_or_none unified_timestamp
        _extract_m3u8_formats _extract_f4m_formats _extract_mpd_formats
        _sort_formats d video_id
  | _ => Raise (TypeError "video_info is not a mapping")
  end.

End Collaborators.
End SVTBaseIE_untyped.

Module SVTIE_Extract.
Section Collaborators.

Variable determine_ext : pyobj -> option string.
Variable int_or_none : pyobj -> pyobj.
Variable unified_timestamp : pyobj -> pyobj.
Variable _extract_m3u8_formats :
  pyobj -> string -> string -> string -> pyobj -> list pyobj.
Variable _extract_f4m_formats : string -> string -> pyobj -> list pyobj.
Variable _extract_mpd_formats : pyobj -> string -> pyobj -> list pyobj.
Variable _sort_formats : list pyobj -> option (list pyobj).

(** [_download_json(url, ...)]: the decoded document, or the error the
    transport raises. *)
Variable _download_json : string -> result pyobj.

(** The endpoint
    ['http://www.svt.se/wd?widgetId=%s&articleId=%s&format=json&type=embed&output=json']. *)
Definition widget_url (widget_id article_id : string) : string :=
  ("http://www.svt.se/wd?widgetId=" ++ widget_id ++ "&articleId=" ++ article_id
   ++ "&format=json&type=embed&output=json")%string.

(** [_real_extract], from the two groups of the URL match. *)
Definition _real_extract (widget_id article_id : string)
    : result (dict * list call) :=
  info <- _download_json (widget_url widget_id article_id) ;;
  video <- getitem info "video" ;;
  '(info_dict, calls) <-
    SVTBaseIE_untyped._extract_video determine_ext int_or_none
      unified_timestamp _extract_m3u8_formats _extract_f4m_formats
      _extract_mpd_formats _sort_formats video article_id ;;
  context <- getitem info "context" ;;
  title <- getitem context "title" ;;
  Ok (dict_set (KStr "title") title info_dict, calls).

End Collaborators.
End SVTIE_Extract.

Module SVTPlayIE_Extract.
Section Collaborators.

Variable determine_ext : pyobj -> option string.
Variable int_or_none : pyobj -> pyobj.
Variable unified_timestamp : pyobj -> pyobj.
Variable _extract_m3u8_formats :
  pyobj -> string -> string -> string -> pyobj -> list pyobj.
Variable _extract_f4m_formats : string -> string -> pyobj -> list pyobj.
Variable _extract_mpd_formats : pyobj -> string -> pyobj -> list pyobj.
Variable _sort_formats : list pyobj -> option (list pyobj).

(** Methods of the extractor base class and the patterns they are given.
    [_download_json] and [_download_webpage] fetch by URL;
    [embedded_data] is [_parse_json(_search_regex(_SVTPLAY_RE, webpage,
    default='{}'), fatal=False)], which gives [None] instead of raising;
    [_search_video_id] is the fatal [_search_regex] over the four id
    patterns; [page_title] is [_og_search_title] with the [| suffix]
    removed by [re.sub]; [_og_search_thumbnail] is not fatal;
    [_live_title] appends the current time to a title. *)
Variable _download_json : string -> result pyobj.
Variable _download_webpage : string -> result string.
Variable embedded_data : string -> pyobj.
Variable _search_video_id : string -> result string.
Variable page_title : string -> result string.
Variable _og_search_thumbnail : string -> pyobj.
Variable _live_title : pyobj -> pyobj.

Definition api_url (video_id : string) : string :=
  ("https://api.svt.se/videoplayer-api/video/" ++ video_id)%string.

(** [_adjust_title]: the item with a live title when it is live. *)
Definition _adjust_title (info : dict) : result dict :=
  is_live <- getitem (PDict info) "is_live" ;;
  if truthy is_live then
    title <- getitem (PDict info) "title" ;;
    Ok (dict_set (KStr "title") (_live_title title) info)
  else Ok info.

(** The title [_extract_by_video_id] gives an item that has none. *)
Definition fallback_title (info_dict : dict) (video_id : string)
    (webpage : option string) : result pyobj :=
  let title := dict_get info_dict ["episode"; "series"] PNone true in
  title <-
    (if truthy title then Ok title
     else
       match webpage with
       | Some (String c rest) =>
           t <- page_title (String c rest) ;; Ok (PStr t)
       | _ => Ok title
       end) ;;
  Ok (if truthy title then title else PStr video_id).

Definition _extract_by_video_id (video_id : string) (webpage : option string)
    : result (dict * list call) :=
  data <- _download_json (api_url video_id) ;;
  '(info_dict, calls) <-
    SVTBaseIE_untyped._extract_video determine_ext int_or_none
      unified_timestamp _extract_m3u8_formats _extract_f4m_formats
      _extract_mpd_formats _sort_formats data video_id ;;
  info_dict <-
    (if truthy (get info_dict "title") then Ok info_dict
     else
       title <- fallback_title info_dict video_id webpage ;;
       Ok (dict_set (KStr "title") title info_dict)) ;;
  info_dict <- _adjust_title info_dict ;;
  Ok (info_dict, calls).

Definition store_path : list string :=
  ["context"; "dispatcher"; "stores"; "VideoTitlePageStore"; "data"; "video"].

Definition meta_title_path : list string :=
  ["context"; "dispatcher"; "stores"; "MetaStore"; "title"].

Definition data_lake_path : list string :=
  ["statistics"; "dataLake"; "content"; "id"].

(** The first [if data:] block of [_real_extract]: the item built from
    the page's store (empty when the store has no video) and the content
    id read from the page. *)
Definition from_store (data : pyobj) (video_id : string)
    : result (dict * list call * pyobj) :=
  if truthy data then
    let video_info :=
      try_get data [fun x => getpath x store_path] (Some is_dict) in
    item <-
      match video_info with
      | PDict (entry :: more) =>
          '(info_dict, calls) <-
            SVTBaseIE._extract_video determine_ext int_or_none
              unified_timestamp _extract_m3u8_formats _extract_f4m_formats
              _extract_mpd_formats _sort_formats (entry :: more) video_id ;;
          title <- getpath data meta_title_path ;;
          info_dict <- _adjust_title (dict_set (KStr "title") title info_dict) ;;
          Ok (info_dict, calls)
      | _ => Ok ([], [])
      end ;;
    let svt_id :=
      try_get data [fun x => getpath x data_lake_path] (Some is_str) in
    Ok (item, svt_id)
  else Ok (([], []), PNone).

(** [if not info_dict: ...]: the item resolved by content id when the
    store gave none. *)
Definition by_content_id (item : dict * list call) (svt_id : pyobj)
    (webpage : string) : result (dict * list call) :=
  match fst item with
  | [] =>
      id <-
        match svt_id with
        | PStr (String c rest) => Ok (String c rest)
        | _ => _search_video_id webpage
        end ;;
      _extract_by_video_id id (Some webpage)
  | _ :: _ => Ok item
  end.

(** [if not info_dict.get('thumbnail'): info_dict['thumbnail'] = ...]. *)
Definition backfill_thumbnail (info_dict : dict) (webpage : string) : dict :=
  if truthy (get info_dict "thumbnail") then info_dict
  else dict_set (KStr "thumbnail") (_og_search_thumbnail webpage) info_dict.

(** [_real_extract], from the URL and the two groups of its match. *)
Definition _real_extract (url video_id : string) (svt_id : option string)
    : result (dict * list call) :=
  match svt_id with
  | Some (String c rest) => _extract_by_video_id (String c rest) None
  | _ =>
      webpage <- _download_webpage url ;;
      let data := embedded_data webpage in
      '(item, page_id) <- from_store data video_id ;;
      '(info_dict, calls) <- by_content_id item page_id webpage ;;
      info_dict <-
        SVTPlayIE.layer_video_page int_or_none unified_timestamp data
          info_dict ;;
      Ok (backfill_thumbnail info_dict webpage, calls)
  end.

End Collaborators.
End SVTPlayIE_Extract.

Module SVTSeriesIE_Extract.
Section Collaborators.

(** [compat_str] renders a value that is not a text for ['%s']. *)
Variable compat_str : pyobj -> string.

(** ['%s' % v]. *)
Definition percent_s (v : pyobj) : string :=
  match v with
  | PStr s => s
  | _ => compat_str v
  end.

(** [if season_id:] for a group of the URL match. *)
Definition selector (season_id : option string) : option string :=
  match season_id with
  | Some (String c rest) => Some (String c rest)
  | _ => None
  end.

(** One turn of the loop over [items]. *)
Definition item_entry (item : pyobj) (entries : list url_result)
    : result (list url_result) :=
  d <- as_dict item ;;
  video <- as_dict (py_or (get d "item") (PDict [])) ;;
  match get video "videoSvtId" with
  | PStr (String c rest) =>
      let content_id := String c rest in
      Ok (entries ++ [mk_url_result ("svt:" ++ content_id)%string
                        SVTPageIE.SVTPlayIE_ie_key content_id])
  | _ => Ok entries
  end.

Fixpoint items_loop (items : list pyobj) (entries : list url_result)
    : result (list url_result) :=
  match items with
  | [] => Ok entries
  | item :: rest =>
      entries' <- item_entry item entries ;;
      items_loop rest entries'
  end.

(** One turn of the loop over [associatedContent], on the state
    [(season_name, entries)]. *)
Definition season_step (season_id : option string) (season : pyobj)
    (state : pyobj * list url_result) : result (pyobj * list url_result) :=
  let '(season_name, entries) := state in
  match season with
  | PDict d =>
      let chosen :=
        match selector season_id with
        | Some s =>
            if eq_str (get d "id") s then Some (get d "name") else None
        | None => Some season_name
        end in
      match chosen with
      | None => Ok (season_name, entries)
      | Some season_name' =>
          match get d "items" with
          | PList items =>
              entries' <- items_loop items entries ;;
              Ok (season_name', entries')
          | _ => Ok (season_name', entries)
          end
      end
  | _ => Ok (season_name, entries)
  end.

Fixpoint seasons_loop (season_id : option string) (seasons : list pyobj)
    (state : pyobj * list url_result) : result (pyobj * list url_result) :=
  match seasons with
  | [] => Ok state
  | season :: rest =>
      state' <- season_step season_id season state ;;
      seasons_loop season_id rest state'
  end.

Definition season_obj (season_id : option string) : pyobj :=
  match season_id with
  | Some s => PStr s
  | None => PNone
  end.

(** The playlist title. *)
Definition playlist_title (name season_name : pyobj)
    (season_id : option string) : pyobj :=
  let season_name := py_or season_name (season_obj season_id) in
  if truthy name && truthy season_name
  then PStr (percent_s name ++ " - " ++ percent_s season_name)%string
  else
    match selector season_id with
    | Some s => PStr s
    | None => name
    end.

(** [_real_extract] from the point where [series] has been fetched;
    [season_id] is the second group of the URL match. *)
Definition _real_extract_series (series : pyobj) (season_id : option string)
    : result described_playlist :=
  content <- getitem series "associatedContent" ;;
  seasons <- py_iter content ;;
  '(season_name, entries) <- seasons_loop season_id seasons (PNone, []) ;;
  s <- as_dict series ;;
  Ok (mk_described_playlist entries
        (py_or (season_obj season_id) (get s "id"))
        (playlist_title (get s "name") season_name season_id)
        (dict_get s ["longDescription"; "shortDescription"] PNone true)).

End Collaborators.
End SVTSeriesIE_Extract.

(** ** A sample site

    Stand-ins for the transport and the page searches, over a handful of
    documents, to run the remaining methods on concrete inputs. *)
Module Sample_site.

Definition unified_timestamp (v : pyobj) : pyobj :=
  if eq_str v "2019-04-24" then PInt 1556064000 else PNone.



Definition video_dated : dict :=
  [(KStr "validFrom", PNone);
   (KStr "rights", PDict [(KStr "validFrom", PStr "2019-04-24")]);
   (KStr "materialLength", PInt 0);
   (KStr "contentDuration", PInt 820)].

Definition video_rights_dated : dict :=
  [(KStr "rights", PDict [(KStr "validFrom", PStr "2019-04-24")]);
   (KStr "materialLength", PInt 0);
   (KStr "contentDuration", PInt 820)].

Definition api_episode : dict :=
  [(KStr "episodeTitle", PStr "Avsnitt 8");
   (KStr "programTitle", PStr "Dagbok");
   (KStr "simulcast", PBool true);
   (KStr "videoReferences", PList [Sample.ref_mp4])].

Definition api_untitled : dict :=
  [(KStr "videoReferences", PList [Sample.ref_mp4])].

Definition widget_doc : dict :=
  [(KStr "video", PDict Sample.video_direct);
   (KStr "context", PDict [(KStr "title", PStr "Stars joke around")])].

Definition widget_doc_blocked : dict :=
  [(KStr "video", PDict Sample.video_blocked)].

Definition _download_json (url : string) : result pyobj :=
  if String.eqb url (SVTIE_Extract.widget_url "23991" "2900353")
  then Ok (PDict widget_doc)
  else if String.eqb url (SVTIE_Extract.widget_url "23991" "5219710")
  then Ok (PDict widget_doc_blocked)
  else if String.eqb url (SVTPlayIE_Extract.api_url "KyVERRZ")
  then Ok (PDict api_episode)
  else if String.eqb url (SVTPlayIE_Extract.api_url "jXvk42E")
  then Ok (PDict api_untitled)
  else Raise (ExtractorError "HTTP Error 404").

(** An endpoint that is down. *)
Definition _download_json_down (url : string) : result pyobj :=
  Raise (ExtractorError "HTTP Error 503").

Definition _download_webpage (url : string) : result string :=
  if String.eqb url "https://www.svtplay.se/video/1/store" then Ok "store page"
  else if String.eqb url "https://www.svtplay.se/video/2/lake" then Ok "lake page"
  else if String.eqb url "https://www.svtplay.se/video/3/plain" then Ok "plain page"
  else if String.eqb url "https://www.svtplay.se/video/4/bare" then Ok "bare page"
  else Raise (ExtractorError "HTTP Error 404").

Definition store_data : pyobj :=
  PDict
    [(KStr "context",
      PDict
        [(KStr "dispatcher",
          PDict
            [(KStr "stores",
              PDict
                [(KStr "VideoTitlePageStore",
                  PDict
                    [(KStr "data",
                      PDict [(KStr "video", PDict Sample.video_direct)])]);
                 (KStr "MetaStore",
                  PDict [(KStr "title", PStr "Store title")])])])])].

Definition lake_data : pyobj :=
  PDict
    [(KStr "statistics",
      PDict
        [(KStr "dataLake",
          PDict [(KStr "content", PDict [(KStr "id", PStr "KyVERRZ")])])])].

Definition embedded_data (webpage : string) : pyobj :=
  if String.eqb webpage "store page" then store_data
  else if String.eqb webpage "lake page" then lake_data
  else PNone.

Definition _search_video_id (webpage : string) : result string :=
  if String.eqb webpage "plain page" then Ok "jXvk42E"
  else Raise (ExtractorError "Unable to extract video id").

Definition _search_video_id_none (webpage : string) : result string :=
  Raise (ExtractorError "Unable to extract video id").

Definition page_title (webpage : string) : result string :=
  if String.eqb webpage "plain page" then Ok "Plain title"
  else Raise (ExtractorError "Unable to extract OpenGraph title").

Definition page_title_none (webpage : string) : result string :=
  Raise (ExtractorError "Unable to extract OpenGraph title").

Definition _og_search_thumbnail (webpage : string) : pyobj :=
  if String.eqb webpage "plain page" then PStr "http://img.example/og.jpg"
  else PNone.

Definition _live_title (title : pyobj) : pyobj :=
  match title with
  | PStr s => PStr (s ++ " 2019-04-24 10:00")%string
  | _ => title
  end.

Definition _extract_video :=
  SVTBaseIE._extract_video Sample.determine_ext Sample.int_or_none
    unified_timestamp Sample._extract_m3u8_formats Sample._extract_f4m_formats
    Sample._extract_mpd_formats Sample._sort_formats.

Definition widget_extract :=
  SVTIE_Extract._real_extract Sample.determine_ext Sample.int_or_none
    unified_timestamp Sample._extract_m3u8_formats Sample._extract_f4m_formats
    Sample._extract_mpd_formats Sample._sort_formats _download_json.

Definition _extract_by_video_id :=
  SVTPlayIE_Extract._extract_by_video_id Sample.determine_ext
    Sample.int_or_none unified_timestamp Sample._extract_m3u8_formats
    Sample._extract_f4m_formats Sample._extract_mpd_formats
    Sample._sort_formats _download_json page_title _live_title.

Definition play_extract :=
  SVTPlayIE_Extract._real_extract Sample.determine_ext Sample.int_or_none
    unified_timestamp Sample._extract_m3u8_formats Sample._extract_f4m_formats
    Sample._extract_mpd_formats Sample._sort_formats _download_json
    _download_webpage embedded_data _search_video_id page_title
    _og_search_thumbnail _live_title.

(** A series document. *)
Definition item (content_id : string) : pyobj :=
  PDict [(KStr "item", PDict [(KStr "videoSvtId", PStr content_id)])].

Definition season_1 : pyobj :=
  PDict [(KStr "id", PStr "season-1"); (KStr "name", PStr "Season 1");
         (KStr "items",
          PList [item "a1"; PDict [(KStr "item", PNone)]; item "a2"])].

Definition season_2 : pyobj :=
  PDict [(KStr "id", PStr "season-2"); (KStr "name", PStr "Season 2");
         (KStr "items", PList [item "b1"; PStr "not an item"])].

Definition seasons : list pyobj := [season_1; PStr "not a season"; season_2].

Definition series_doc : dict :=
  [(KStr "id", PStr "14445680"); (KStr "name", PStr "Rederiet");
   (KStr "longDescription", PStr EmptyString);
   (KStr "shortDescription", PStr "A shipping company");
   (KStr "associatedContent", PList seasons)].

Definition series_extract :=
  SVTSeriesIE_Extract._real_extract_series Sample.compat_str.

(** An article with three video nodes and two other nodes. *)
Definition node_text : pyobj := PDict [(KStr "_type", PStr "TEXT")].

Definition article_media : list pyobj :=
  [Sample.node_clip; node_text; Sample.node_clip].

Definition article_body : list pyobj :=
  [PDict [(KStr "content", Sample.node_clip)]; PDict [(KStr "type", PStr "p")]].

Definition article_good : dict :=
  [(KStr "id", PInt 24243746);
   (KStr "title", PStr "Redo att fly");
   (KStr "media", PList article_media);
   (KStr "structuredBody", PList article_body)].


Definition article_extract :=
  SVTPageIE._real_extract_article Sample.compat_str Sample.str_or_none
    Sample.strip_or_none.

End Sample_site.

(** ** Further vocabulary *)


(** No two groups of a subtitle map have the same language. *)
Fixpoint distinct_languages (m : subtitle_map) : bool :=
  match m with
  | [] => true
  | (k, _) :: rest =>
      forallb (fun kl => negb (key_eqb k (fst kl))) rest
      && distinct_languages rest
  end.

(** A subtitle track: a mapping with the single key [url], whose value is
    true. *)
Definition is_track (t : pyobj) : Prop :=
  exists url, t = PDict [(KStr "url", url)] /\ truthy url = true.

(** A group of a subtitle map is never empty and holds tracks only. *)
Definition good_group (kl : key * list pyobj) : Prop :=
  snd kl <> [] /\ Forall is_track (snd kl).

(** Where the timestamp is read: [validFrom] when the key is there, even
    with a null value; otherwise [rights.validFrom]; otherwise nothing. *)
Definition timestamp_source (video_info : dict) : pyobj :=
  match dict_lookup (KStr "validFrom") video_info with
  | Some v => v
  | None =>
      match dict_lookup (KStr "rights") video_info with
      | Some (PDict rights) => get rights "validFrom"
      | _ => PNone
      end
  end.

(** Where the duration is read: the first true value of [materialLength]
    and [contentDuration]. *)
Definition duration_source (video_info : dict) : pyobj :=
  if truthy (get video_info "materialLength")
  then get video_info "materialLength"
  else if truthy (get video_info "contentDuration")
       then get video_info "contentDuration"
       else PNone.


(** The forward reference to [SVTPlayIE] for a content id. *)
Definition forward_reference (content_id : string) : url_result :=
  mk_url_result ("svt:" ++ content_id)%string "SVTPlay" content_id.

(** The first true value of a list, [default] when there is none. *)
Fixpoint first_true (values : list pyobj) (default : pyobj) : pyobj :=
  match values with
  | [] => default
  | v :: rest => if truthy v then v else first_true rest default
  end.

(** The content id of an item of a season: the non-empty text under
    [item.videoSvtId]. *)
Definition content_id_of (item : pyobj) : option string :=
  match item with
  | PDict d =>
      match py_or (get d "item") (PDict []) with
      | PDict video =>
          match get video "videoSvtId" with
          | PStr (String c rest) => Some (String c rest)
          | _ => None
          end
      | _ => None
      end
  | _ => None
  end.

Fixpoint content_ids (items : list pyobj) : list string :=
  match items with
  | [] => []
  | item :: rest =>
      match content_id_of item with
      | Some id => id :: content_ids rest
      | None => content_ids rest
      end
  end.

(** A season the loop does not skip: a mapping, with the id of the
    selector when there is a selector. *)
Definition season_selected (season_id : option string) (season : pyobj)
    : bool :=
  match season with
  | PDict d =>
      match SVTSeriesIE_Extract.selector season_id with
      | Some s => eq_str (get d "id") s
      | None => true
      end
  | _ => false
  end.

(** The items of a season: its [items] list, nothing when [items] is not
    a list. *)
Definition season_items (season : pyobj) : list pyobj :=
  match season with
  | PDict d =>
      match get d "items" with
      | PList items => items
      | _ => []
      end
  | _ => []
  end.

Definition selected_ids (season_id : option string) (seasons : list pyobj)
    : list string :=
  flat_map (fun season => content_ids (season_items season))
    (filter (season_selected season_id) seasons).

(** An item the loop can read: a mapping whose [item], when true, is a
    mapping. *)
Definition well_formed_item (item : pyobj) : Prop :=
  exists d video,
    item = PDict d /\ py_or (get d "item") (PDict []) = PDict video.

(** The entries a content node of an article stands for. *)
Definition node_entries (compat_str : pyobj -> string) (node : pyobj)
    : list url_result :=
  match node with
  | PDict d =>
      if SVTPageIE.is_video_type (get d "_type") then
        match dict_lookup (KStr "image") d with
        | Some (PDict image) =>
            match dict_lookup (KStr "svtId") image with
            | Some id => [forward_reference (compat_str id)]
            | None => []
            end
        | _ => []
        end
      else []
  | _ => []
  end.

(** A content node the walk can read: a mapping that, when it has a video
    type, has [image.svtId]. *)
Definition well_formed_node (node : pyobj) : Prop :=
  exists d,
    node = PDict d
    /\ (SVTPageIE.is_video_type (get d "_type") = true ->
        exists image id,
          dict_lookup (KStr "image") d = Some (PDict image)
          /\ dict_lookup (KStr "svtId") image = Some id).

(** The node a [structuredBody] entry hands to the walk. *)
Definition body_content (obj : pyobj) : pyobj :=
  match obj with
  | PDict o => py_or (get o "content") (PDict [])
  | _ => PNone
  end.

Definition well_formed_body_entry (obj : pyobj) : Prop :=
  (exists o, obj = PDict o) /\ well_formed_node (body_content obj).

(** [article.get(key, [])] when it is a list. *)
Definition list_or_default (a : dict) (k : string) : option (list pyobj) :=
  match dict_lookup (KStr k) a with
  | None => Some []
  | Some (PList l) => Some l
  | Some _ => None
  end.


(** A forward reference with a non-empty id. *)
Definition proper_reference (e : url_result) : Prop :=
  exists id, e = forward_reference id /\ id <> EmptyString.

(** * Properties *)

(** ** The error monad *)

Lemma bind_Ok_inv {A B : Type} (m : result A) (f : A -> result B) (b : B) :
  bind m f = Ok b -> exists a, m = Ok a /\ f a = Ok b.
Proof.
  destruct m as [a|e]; simpl; intros H; [exists a; split; trivial | discriminate].
Qed.

Lemma bind_Raise_inv {A B : Type} (m : result A) (f : A -> result B) (e : exn) :
  bind m f = Raise e -> m = Raise e \/ exists a, m = Ok a /\ f a = Raise e.
Proof.
  destruct m as [a|e']; simpl; intros H.
  - right. exists a. split; trivial.
  - left. congruence.
Qed.

Ltac inv_bind H :=
  let a := fresh "a" in
  let Ha := fresh "Ha" in
  apply bind_Ok_inv in H; destruct H as [a [Ha H]].

(** ** Dictionary keys *)

Lemma key_eqb_norm (a b : key) : key_eqb a b = true <-> key_norm a = key_norm b.
Proof.
  destruct a as [|x|x|x], b as [|y|y|y]; simpl; split; intros H;
    try discriminate; try reflexivity;
    try (apply Z.eqb_eq in H); try (apply String.eqb_eq in H);
    try (apply Bool.eqb_prop in H); subst; try reflexivity;
    try (inversion H; subst);
    try (apply Z.eqb_eq; congruence); try (apply String.eqb_refl);
    try (destruct x, y; simpl in *; congruence).
Qed.

Lemma key_eqb_refl (a : key) : key_eqb a a = true.
Proof. apply key_eqb_norm. reflexivity. Qed.

Lemma key_eqb_trans_l (a b c : key) :
  key_eqb a b = true -> key_eqb c a = key_eqb c b.
Proof.
  intros H. apply key_eqb_norm in H.
  destruct (key_eqb c a) eqn:Ea, (key_eqb c b) eqn:Eb; trivial.
  - apply key_eqb_norm in Ea.
    assert (Hcb : key_eqb c b = true) by (apply key_eqb_norm; congruence).
    congruence.
  - apply key_eqb_norm in Eb.
    assert (Hca : key_eqb c a = true) by (apply key_eqb_norm; congruence).
    congruence.
Qed.

Lemma key_eqb_str (a b : string) : key_eqb (KStr a) (KStr b) = String.eqb a b.
Proof. reflexivity. Qed.

(** ** The rendition resolver and the metadata normaliser *)

Section SVTBaseIE_properties.

Variable determine_ext : pyobj -> option string.
Variable int_or_none : pyobj -> pyobj.
Variable unified_timestamp : pyobj -> pyobj.
Variable _extract_m3u8_formats :
  pyobj -> string -> string -> string -> pyobj -> list pyobj.
Variable _extract_f4m_formats : string -> string -> pyobj -> list pyobj.
Variable _extract_mpd_formats : pyobj -> string -> pyobj -> list pyobj.
Variable _sort_formats : list pyobj -> option (list pyobj).

Local Abbreviation ext_of := (SVTBaseIE.ext_of determine_ext).
Local Abbreviation extract_ref :=
  (SVTBaseIE.extract_ref determine_ext _extract_m3u8_formats
     _extract_f4m_formats _extract_mpd_formats).
Local Abbreviation extract_refs :=
  (SVTBaseIE.extract_refs determine_ext _extract_m3u8_formats
     _extract_f4m_formats _extract_mpd_formats).
Local Abbreviation extract_formats :=
  (SVTBaseIE.extract_formats determine_ext _extract_m3u8_formats
     _extract_f4m_formats _extract_mpd_formats).
Local Abbreviation subtitles_loop := (SVTBaseIE.subtitles_loop determine_ext).
Local Abbreviation extract_subtitles := (SVTBaseIE.extract_subtitles determine_ext).
Local Abbreviation metadata_fields :=
  (SVTBaseIE.metadata_fields int_or_none unified_timestamp).
Local Abbreviation _extract_metadata :=
  (SVTBaseIE._extract_metadata int_or_none unified_timestamp).
Local Abbreviation _extract_video :=
  (SVTBaseIE._extract_video determine_ext int_or_none unified_timestamp
     _extract_m3u8_formats _extract_f4m_formats _extract_mpd_formats
     _sort_formats).
Local Abbreviation is_live_of := SVTBaseIE.is_live_of.
Local Abbreviation player_type_of := SVTBaseIE.player_type_of.
Local Abbreviation age_limit_of := SVTBaseIE.age_limit_of.
Local Abbreviation geo_blocked := SVTBaseIE.geo_blocked.
Local Abbreviation geo_check := SVTBaseIE.geo_check.

(** *** The loop over the references *)

Lemma extract_refs_acc (is_live : pyobj) (video_id : string)
    (refs : list pyobj) :
  forall formats calls,
    extract_refs is_live video_id refs formats calls =
    match extract_refs is_live video_id refs [] [] with
    | Ok (fs, cs) => Ok (formats ++ fs, calls ++ cs)
    | Raise e => Raise e
    end.
Proof.
  induction refs as [|vr rest IH]; intros formats calls; simpl.
  - now rewrite !app_nil_r.
  - destruct (extract_ref is_live video_id vr) as [[fs cs]|e]; simpl; trivial.
    rewrite (IH (formats ++ fs) (calls ++ cs)), (IH fs cs).
    destruct (extract_refs is_live video_id rest [] []) as [[fs' cs']|e]; trivial.
    now rewrite !app_assoc.
Qed.

Lemma extract_refs_cons (is_live : pyobj) (video_id : string)
    (vr : pyobj) (rest : list pyobj) :
  extract_refs is_live video_id (vr :: rest) [] [] =
  match extract_ref is_live video_id vr with
  | Ok (fs, cs) =>
      match extract_refs is_live video_id rest [] [] with
      | Ok (fs', cs') => Ok (fs ++ fs', cs ++ cs')
      | Raise e => Raise e
      end
  | Raise e => Raise e
  end.
Proof.
  simpl. destruct (extract_ref is_live video_id vr) as [[fs cs]|e]; simpl; trivial.
  apply extract_refs_acc.
Qed.

(** What one reference does once its URL and extension are known. *)
Lemma extract_ref_dict (is_live : pyobj) (video_id : string) (d : dict)
    (u : pyobj) (e : string) :
  dict_lookup (KStr "url") d = Some u ->
  determine_ext u = Some e ->
  extract_ref is_live video_id (PDict d) =
  if String.eqb e "m3u8" then
    Ok (_extract_m3u8_formats u video_id "mp4"
          (SVTBaseIE.m3u8_protocol_of is_live) (player_type_of d),
        [HLS u video_id "mp4" (SVTBaseIE.m3u8_protocol_of is_live)
           (player_type_of d)])
  else if String.eqb e "f4m" then
    match u with
    | PStr s =>
        Ok (_extract_f4m_formats (s ++ "?hdcore=3.3.0")%string video_id
              (player_type_of d),
            [HDS (s ++ "?hdcore=3.3.0")%string video_id (player_type_of d)])
    | _ => Raise (TypeError "unsupported operand type(s) for +")
    end
  else if String.eqb e "mpd" then
    if eq_str (player_type_of d) "dashhbbtv" then
      Ok (_extract_mpd_formats u video_id (player_type_of d),
          [DASH u video_id (player_type_of d)])
    else Ok ([], [])
  else
    Ok ([PDict [(KStr "format_id", player_type_of d); (KStr "url", u)]], []).
Proof.
  intros Hu He.
  unfold SVTBaseIE.extract_ref, SVTBaseIE.ext_of, getitem; simpl.
  rewrite Hu; simpl. rewrite He; simpl. reflexivity.
Qed.

(** Every HLS call a reference makes carries the [mp4] container and the
    protocol chosen from [is_live]. *)
Lemma extract_ref_hls (is_live : pyobj) (video_id : string) (vr : pyobj)
    (fs : list pyobj) (cs : list call) :
  extract_ref is_live video_id vr = Ok (fs, cs) ->
  forall u i e p t, In (HLS u i e p t) cs ->
    e = "mp4" /\ p = SVTBaseIE.m3u8_protocol_of is_live.
Proof.
  unfold SVTBaseIE.extract_ref. intros H.
  inv_bind H. inv_bind H. inv_bind H.
  destruct (String.eqb a1 "m3u8").
  { inversion H; subst. intros u i e p t [Hin|[]]. inversion Hin; auto. }
  destruct (String.eqb a1 "f4m").
  { destruct a0; try discriminate. inversion H; subst.
    intros u i e p t [Hin|[]]. discriminate. }
  destruct (String.eqb a1 "mpd").
  { destruct (eq_str _ _); inversion H; subst.
    - intros u i e p t [Hin|[]]. discriminate.
    - intros u i e p t []. }
  inversion H; subst. intros u i e p t [].
Qed.

Lemma extract_refs_hls (is_live : pyobj) (video_id : string)
    (refs : list pyobj) :
  forall fs cs,
    extract_refs is_live video_id refs [] [] = Ok (fs, cs) ->
    forall u i e p t, In (HLS u i e p t) cs ->
      e = "mp4" /\ p = SVTBaseIE.m3u8_protocol_of is_live.
Proof.
  induction refs as [|vr rest IH]; intros fs cs H.
  - inversion H; subst. intros u i e p t [].
  - rewrite extract_refs_cons in H.
    destruct (extract_ref is_live video_id vr) as [[f1 c1]|?] eqn:E1;
      try discriminate.
    destruct (extract_refs is_live video_id rest [] []) as [[f2 c2]|?] eqn:E2;
      try discriminate.
    inversion H; subst. intros u i e p t Hin.
    apply in_app_or in Hin. destruct Hin as [Hin|Hin].
    + eapply extract_ref_hls; eauto.
    + eapply IH; eauto.
Qed.

(** *** Live flag and HLS mode *)

(** [dict_get] with false values skipped: one step of the priority list. *)
Lemma dict_get_skip_cons (d : dict) (k : string) (rest : list string)
    (default : pyobj) :
  dict_get d (k :: rest) default true =
  if truthy (get d k) then get d k else dict_get d rest default true.
Proof.
  unfold get, dict_get_default; simpl.
  destruct (dict_lookup (KStr k) d) as [v|]; trivial.
  destruct v as [|b|z|s|l|d']; simpl; trivial;
    [destruct b | destruct (Z.eqb z 0) | destruct (String.eqb s EmptyString)
    | destruct l | destruct d']; reflexivity.
Qed.

Lemma is_live_truthy (video_info : dict) :
  truthy (is_live_of video_info) =
  truthy (get video_info "live") || truthy (get video_info "simulcast").
Proof.
  unfold SVTBaseIE.is_live_of. rewrite !dict_get_skip_cons.
  destruct (truthy (get video_info "live")) eqn:E; simpl; trivial.
  destruct (truthy (get video_info "simulcast")) eqn:F; simpl; trivial.
Qed.

(** C7: [is_live] is the disjunction of [live] and [simulcast], false when
    both are absent, and every [.m3u8] reference is handed to the HLS
    decoder with the [mp4] container and with the live protocol [m3u8]
    exactly when [is_live] is true, the static [m3u8_native] otherwise. *)
Theorem is_live_or_and_hls_mode (video_info : dict) (video_id : string) :
  let is_live := is_live_of video_info in
  let protocol := if truthy is_live then "m3u8" else "m3u8_native" in
  truthy is_live =
    truthy (get video_info "live") || truthy (get video_info "simulcast")
  /\ (forall a b,
        flag_value (get video_info "live") a ->
        flag_value (get video_info "simulcast") b ->
        is_live = PBool (a || b))
  /\ (forall d u,
        dict_lookup (KStr "url") d = Some u ->
        determine_ext u = Some "m3u8" ->
        extract_ref is_live video_id (PDict d) =
        Ok (_extract_m3u8_formats u video_id "mp4" protocol (player_type_of d),
            [HLS u video_id "mp4" protocol (player_type_of d)]))
  /\ (forall formats calls,
        extract_formats video_info video_id = Ok (formats, calls) ->
        forall u i e p t, In (HLS u i e p t) calls ->
          e = "mp4" /\ p = protocol).
Proof.
  cbv zeta. split; [apply is_live_truthy|]. split; [|split].
  - intros a b Ha Hb. unfold flag_value, get, dict_get_default in *.
    unfold SVTBaseIE.is_live_of; simpl.
    destruct (dict_lookup (KStr "live") video_info) as [v|];
      destruct (dict_lookup (KStr "simulcast") video_info) as [w|];
      destruct Ha as [Ha|[Ha Ha']], Hb as [Hb|[Hb Hb']]; subst;
      try discriminate; simpl;
      try (destruct a; simpl; try reflexivity);
      try (destruct b; simpl; reflexivity); reflexivity.
  - intros d u Hu He. rewrite (extract_ref_dict _ _ _ _ _ Hu He). reflexivity.
  - intros formats calls H u i e p t Hin.
    unfold SVTBaseIE.extract_formats in H.
    inv_bind H. inv_bind H.
    exact (extract_refs_hls _ _ _ _ _ H _ _ _ _ _ Hin).
Qed.

(** *** DASH references *)

(** C4: a reference whose URL has the extension [mpd] goes to the DASH
    decoder, and contributes that decoder's renditions, exactly when its
    player type is [dashhbbtv]; with any other player type it contributes
    no rendition and calls no decoder. *)
Theorem mpd_only_for_dashhbbtv (is_live : pyobj) (video_id : string)
    (d : dict) (u : pyobj) :
  dict_lookup (KStr "url") d = Some u ->
  determine_ext u = Some "mpd" ->
  (player_type_of d = PStr "dashhbbtv" ->
   extract_ref is_live video_id (PDict d) =
   Ok (_extract_mpd_formats u video_id (PStr "dashhbbtv"),
       [DASH u video_id (PStr "dashhbbtv")]))
  /\ (player_type_of d <> PStr "dashhbbtv" ->
      extract_ref is_live video_id (PDict d) = Ok ([], [])).
Proof.
  intros Hu He. rewrite (extract_ref_dict _ _ _ _ _ Hu He). simpl. split.
  - intros ->. reflexivity.
  - intros Hne. destruct (eq_str (player_type_of d) "dashhbbtv") eqn:E; trivial.
    exfalso. apply Hne. unfold eq_str in E.
    destruct (player_type_of d); try discriminate.
    apply String.eqb_eq in E. now subst.
Qed.

(** *** Age limit *)

(** C3: the age limit comes from the first present of
    [inappropriateForChildren] and [blockedForChildren], where a key with
    the value false is present: true gives 18, false gives 0, and with
    both keys absent the age limit is [None]; this is the value handed to
    the merge under [age_limit]. *)
Theorem age_limit_from_first_present (video_info : dict) :
  let first := dict_lookup (KStr "inappropriateForChildren") video_info in
  let second := dict_lookup (KStr "blockedForChildren") video_info in
  (forall b, first = Some (PBool b) ->
     age_limit_of video_info = PInt (if b then 18 else 0))
  /\ (forall b, first = None \/ first = Some PNone ->
        second = Some (PBool b) ->
        age_limit_of video_info = PInt (if b then 18 else 0))
  /\ ((first = None \/ first = Some PNone) ->
      (second = None \/ second = Some PNone) ->
      age_limit_of video_info = PNone)
  /\ (forall fields, metadata_fields video_info = Ok fields ->
        dict_lookup (KStr "age_limit") fields = Some (age_limit_of video_info)).
Proof.
  cbv zeta. unfold SVTBaseIE.age_limit_of; simpl. repeat split.
  - intros b ->. destruct b; reflexivity.
  - intros b [-> | ->] ->; destruct b; reflexivity.
  - intros [-> | ->] [-> | ->]; reflexivity.
  - intros fields H. unfold SVTBaseIE.metadata_fields in H.
    inv_bind H. inversion H; subst. reflexivity.
Qed.

(** *** Dictionaries under assignment and merge *)

Lemma dict_lookup_set (k k' : key) (v : pyobj) (d : dict) :
  dict_lookup k (dict_set k' v d) =
  if key_eqb k k' then Some v else dict_lookup k d.
Proof.
  induction d as [|[k0 v0] rest IH]; simpl.
  - reflexivity.
  - destruct (key_eqb k' k0) eqn:E; simpl.
    + rewrite (key_eqb_trans_l _ _ k E).
      destruct (key_eqb k k0); reflexivity.
    + rewrite IH. destruct (key_eqb k k0) eqn:F; trivial.
      destruct (key_eqb k k') eqn:G; trivial.
      exfalso. apply key_eqb_norm in F, G.
      assert (key_eqb k' k0 = true) by (apply key_eqb_norm; congruence).
      congruence.
Qed.

(** A key the derived fields do not mention keeps its value. *)
Lemma merge_dicts_other (k : key) (derived : dict) :
  forall base,
    (forall k' v, In (k', v) derived -> key_eqb k k' = false) ->
    dict_lookup k (merge_dicts base derived) = dict_lookup k base.
Proof.
  induction derived as [|[k0 v0] rest IH]; intros base H; simpl; trivial.
  rewrite IH by (intros k' v Hin; apply (H k' v); now right).
  destruct (is_empty v0); trivial.
  rewrite dict_lookup_set, (H k0 v0); trivial. now left.
Qed.

Lemma metadata_fields_keys (video_info fields : dict) (k : key) (v : pyobj) :
  metadata_fields video_info = Ok fields ->
  In (k, v) fields ->
  In k [KStr "title"; KStr "thumbnail"; KStr "description"; KStr "timestamp";
        KStr "duration"; KStr "age_limit"; KStr "series";
        KStr "season_number"; KStr "episode"; KStr "episode_number"].
Proof.
  unfold SVTBaseIE.metadata_fields. intros H Hin.
  inv_bind H. inversion H; subst. simpl in Hin.
  repeat (destruct Hin as [Hin|Hin];
          [inversion Hin; subst; simpl; tauto|]).
  destruct Hin.
Qed.

(** *** Direct renditions *)

Lemma extract_ref_direct (is_live : pyobj) (video_id : string) (vr : pyobj) :
  non_adaptive determine_ext vr ->
  extract_ref is_live video_id vr = Ok ([direct_rendition vr], []).
Proof.
  intros (d & u & e & -> & Hu & He & H1 & H2 & H3).
  rewrite (extract_ref_dict _ _ _ _ _ Hu He).
  apply String.eqb_neq in H1, H2, H3. rewrite H1, H2, H3.
  unfold direct_rendition, get, dict_get_default. now rewrite Hu.
Qed.

Lemma extract_refs_direct (is_live : pyobj) (video_id : string)
    (refs : list pyobj) :
  Forall (non_adaptive determine_ext) refs ->
  extract_refs is_live video_id refs [] [] = Ok (map direct_rendition refs, []).
Proof.
  induction 1 as [|vr rest Hvr _ IH].
  - reflexivity.
  - rewrite extract_refs_cons, (extract_ref_direct _ _ _ Hvr), IH. reflexivity.
Qed.

(** C6: when every reference has an extension other than [m3u8], [f4m]
    and [mpd], the loop yields exactly one direct rendition per reference,
    in order, each tagged with the reference's player type, so that there
    are as many renditions as references, and no manifest decoder is
    called; a call of [_extract_video] that returns hands back these
    renditions as ranked by [_sort_formats]. *)
Theorem direct_renditions_one_per_reference (video_info : dict)
    (video_id : string) (refs : list pyobj) :
  dict_lookup (KStr "videoReferences") video_info = Some (PList refs) ->
  Forall (non_adaptive determine_ext) refs ->
  extract_formats video_info video_id = Ok (map direct_rendition refs, [])
  /\ List.length (map direct_rendition refs) = List.length refs
  /\ (forall info calls,
        _extract_video video_info video_id = Ok (info, calls) ->
        calls = []
        /\ exists sorted,
             _sort_formats (map direct_rendition refs) = Some sorted
             /\ dict_lookup (KStr "formats") info = Some (PList sorted)).
Proof.
  intros Hrefs Hall.
  assert (Hloop : extract_formats video_info video_id
                  = Ok (map direct_rendition refs, [])).
  { unfold SVTBaseIE.extract_formats, getitem. rewrite Hrefs; simpl.
    now apply extract_refs_direct. }
  split; [exact Hloop|]. split; [apply length_map|].
  intros info calls H. unfold SVTBaseIE._extract_video in H.
  rewrite Hloop in H; simpl in H.
  inv_bind H. inv_bind H. inv_bind H. inv_bind H.
  inversion H; subst. split; trivial.
  unfold SVTBaseIE.sort_formats in Ha0.
  destruct (_sort_formats (map direct_rendition refs)) as [sorted|] eqn:Es;
    try discriminate.
  inversion Ha0; subst. exists a0. split; trivial.
  unfold SVTBaseIE._extract_metadata in Ha2. inv_bind Ha2.
  inversion Ha2; subst.
  rewrite merge_dicts_other; [reflexivity|].
  intros k' v Hin. pose proof (metadata_fields_keys _ _ _ _ Ha3 Hin) as Hk.
  simpl in Hk.
  repeat (destruct Hk as [Hk|Hk]; [subst; reflexivity|]). destruct Hk.
Qed.

(** *** Geo restriction *)

(** Only the geo check raises [GeoRestrictedError]. *)
Lemma extract_ref_not_geo (is_live : pyobj) (video_id : string) (vr : pyobj)
    (msg : string) (countries : list string) :
  extract_ref is_live video_id vr <> Raise (GeoRestrictedError msg countries).
Proof.
  unfold SVTBaseIE.extract_ref, SVTBaseIE.ext_of, as_dict, getitem.
  destruct vr as [| | | | |d]; simpl; try congruence.
  destruct (dict_lookup (KStr "url") d) as [u|]; simpl; try congruence.
  destruct (determine_ext u) as [e|]; simpl; try congruence.
  destruct (String.eqb e "m3u8"); try congruence.
  destruct (String.eqb e "f4m"); [destruct u; congruence|].
  destruct (String.eqb e "mpd"); [destruct (eq_str _ _); congruence|].
  congruence.
Qed.

Lemma extract_refs_not_geo (is_live : pyobj) (video_id : string)
    (refs : list pyobj) (msg : string) (countries : list string) :
  extract_refs is_live video_id refs [] []
  <> Raise (GeoRestrictedError msg countries).
Proof.
  induction refs as [|vr rest IH]; [simpl; congruence|].
  rewrite extract_refs_cons.
  pose proof (@extract_ref_not_geo is_live video_id vr msg countries) as Hvr.
  destruct (extract_ref is_live video_id vr) as [[fs cs]|e]; [|congruence].
  destruct (extract_refs is_live video_id rest [] []) as [[fs' cs']|e];
    congruence.
Qed.

Lemma extract_formats_not_geo (video_info : dict) (video_id : string)
    (msg : string) (countries : list string) :
  extract_formats video_info video_id
  <> Raise (GeoRestrictedError msg countries).
Proof.
  unfold SVTBaseIE.extract_formats, getitem.
  destruct (dict_lookup (KStr "videoReferences") video_info) as [r|]; simpl;
    try congruence.
  destruct r; simpl; try congruence; apply extract_refs_not_geo.
Qed.

Lemma subtitles_loop_not_geo (srs : list pyobj) (msg : string)
    (countries : list string) :
  forall m, subtitles_loop srs m <> Raise (GeoRestrictedError msg countries).
Proof.
  induction srs as [|sr rest IH]; intros m; simpl; [congruence|].
  destruct sr as [| | | | |d]; simpl; try congruence.
  destruct (truthy (get d "url")); [|apply IH].
  unfold SVTBaseIE.ext_of.
  destruct (determine_ext (get d "url")) as [e|]; simpl; try congruence.
  destruct (String.eqb e "m3u8"); [apply IH|].
  destruct (dict_get_default d "language" (PStr "sv")); simpl;
    try congruence; apply IH.
Qed.

Lemma extract_subtitles_not_geo (video_info : dict) (msg : string)
    (countries : list string) :
  extract_subtitles video_info <> Raise (GeoRestrictedError msg countries).
Proof.
  unfold SVTBaseIE.extract_subtitles.
  destruct (dict_get video_info _ PNone true); try congruence.
  apply subtitles_loop_not_geo.
Qed.

Lemma _extract_metadata_not_geo (info video_info : dict) (msg : string)
    (countries : list string) :
  _extract_metadata info video_info <> Raise (GeoRestrictedError msg countries).
Proof.
  unfold SVTBaseIE._extract_metadata, SVTBaseIE.metadata_fields,
    SVTBaseIE.thumbnail_of.
  destruct (truthy (get video_info "thumbnail")); simpl; try congruence.
  destruct (get video_info "thumbnail"); simpl; congruence.
Qed.

(** The method from the geo check on, for the outcome of the loop. *)
Lemma _extract_video_after_loop (video_info : dict) (video_id : string)
    (formats : list pyobj) (calls : list call) :
  extract_formats video_info video_id = Ok (formats, calls) ->
  _extract_video video_info video_id =
  (_ <- geo_check video_info formats ;;
   sorted <- SVTBaseIE.sort_formats _sort_formats formats ;;
   subtitles <- extract_subtitles video_info ;;
   info <- _extract_metadata
             [ (KStr "id", PStr video_id);
               (KStr "formats", PList sorted);
               (KStr "subtitles", subtitle_map_obj subtitles);
               (KStr "is_live", is_live_of video_info) ]
             video_info ;;
   Ok (info, calls)).
Proof.
  intros H. unfold SVTBaseIE._extract_video. rewrite H. reflexivity.
Qed.

Lemma after_geo_check_not_geo (video_info : dict) (video_id : string)
    (formats : list pyobj) (calls : list call) (msg : string)
    (countries : list string) :
  (sorted <- SVTBaseIE.sort_formats _sort_formats formats ;;
   subtitles <- extract_subtitles video_info ;;
   info <- _extract_metadata
             [ (KStr "id", PStr video_id);
               (KStr "formats", PList sorted);
               (KStr "subtitles", subtitle_map_obj subtitles);
               (KStr "is_live", is_live_of video_info) ]
             video_info ;;
   Ok (info, calls))
  <> Raise (GeoRestrictedError msg countries).
Proof.
  unfold SVTBaseIE.sort_formats.
  destruct (_sort_formats formats) as [sorted|]; simpl; try congruence.
  pose proof (@extract_subtitles_not_geo video_info msg countries) as Hs.
  destruct (extract_subtitles video_info) as [subs|e]; simpl; [|congruence].
  match goal with
  | |- bind (_extract_metadata ?i ?v) _ <> _ =>
      pose proof (@_extract_metadata_not_geo i v msg countries) as Hm;
      destruct (_extract_metadata i v) as [info|e]; simpl; congruence
  end.
Qed.

Lemma geo_blocked_true (video_info : dict) :
  geo_blocked video_info = Ok true <->
  (exists rights,
     dict_lookup (KStr "rights") video_info = Some (PDict rights)
     /\ truthy (get rights "geoBlockedSweden") = true).
Proof.
  unfold SVTBaseIE.geo_blocked, dict_get_default, as_dict. split.
  - destruct (dict_lookup (KStr "rights") video_info) as [r|]; simpl.
    + destruct r as [| | | | |rights]; simpl; try discriminate.
      intros H. exists rights. split; trivial. congruence.
    + discriminate.
  - intros (rights & -> & Ht). simpl. now rewrite Ht.
Qed.

(** C2: [_extract_video] raises the geo error if and only if the loop
    produced no rendition and [rights.geoBlockedSweden] is true; the error
    then names Sweden ([SE]) as the only permitted country, and a call
    whose loop produced a rendition never raises it, whatever the flag. *)
Theorem geo_restricted_iff_empty_and_blocked (video_info : dict)
    (video_id : string) :
  ((exists msg countries,
      _extract_video video_info video_id
      = Raise (GeoRestrictedError msg countries))
   <->
   ((exists calls, extract_formats video_info video_id = Ok ([], calls))
    /\ exists rights,
         dict_lookup (KStr "rights") video_info = Some (PDict rights)
         /\ truthy (get rights "geoBlockedSweden") = true))
  /\ (forall msg countries,
        _extract_video video_info video_id
        = Raise (GeoRestrictedError msg countries) ->
        msg = "This video is only available in Sweden" /\ countries = ["SE"])
  /\ (forall f formats calls msg countries,
        extract_formats video_info video_id = Ok (f :: formats, calls) ->
        _extract_video video_info video_id
        <> Raise (GeoRestrictedError msg countries)).
Proof.
  destruct (extract_formats video_info video_id) as [[formats calls]|e] eqn:E.
  - rewrite (_extract_video_after_loop _ _ _ _ E).
    destruct formats as [|f formats]; simpl.
    + destruct (geo_blocked video_info) as [[|]|e] eqn:G; simpl.
      * split; [|split].
        -- split; [|intros _; eauto].
           intros _. split; [eauto|]. now apply geo_blocked_true.
        -- intros msg countries H. inversion H. auto.
        -- intros f formats calls' msg countries H. discriminate.
      * split; [|split].
        -- split.
           ++ intros (msg & countries & H).
              now apply after_geo_check_not_geo in H.
           ++ intros [_ H]. apply geo_blocked_true in H. congruence.
        -- intros msg countries H. now apply after_geo_check_not_geo in H.
        -- intros f formats calls' msg countries H. discriminate.
      * assert (Hne : forall msg countries,
                  e <> GeoRestrictedError msg countries).
        { intros msg countries ->.
          unfold SVTBaseIE.geo_blocked, as_dict in G.
          destruct (dict_get_default video_info "rights" (PDict []));
            simpl in G; discriminate. }
        split; [|split].
        -- split.
           ++ intros (msg & countries & H). inversion H. now apply Hne in H1.
           ++ intros [_ H]. apply geo_blocked_true in H. congruence.
        -- intros msg countries H. inversion H. now apply Hne in H1.
        -- intros f formats calls' msg countries H. discriminate.
    + split; [|split].
      * split.
        -- intros (msg & countries & H).
           now apply after_geo_check_not_geo in H.
        -- intros [[calls' H] _]. discriminate.
      * intros msg countries H. now apply after_geo_check_not_geo in H.
      * intros f' formats' calls' msg countries _.
        apply after_geo_check_not_geo.
  - assert (Hv : _extract_video video_info video_id = Raise e).
    { unfold SVTBaseIE._extract_video. now rewrite E. }
    rewrite Hv.
    assert (Hne : forall msg countries, e <> GeoRestrictedError msg countries).
    { intros msg countries ->. now apply extract_formats_not_geo in E. }
    split; [|split].
    + split.
      * intros (msg & countries & H). inversion H. now apply Hne in H1.
      * intros [[calls H] _]. discriminate.
    + intros msg countries H. inversion H. now apply Hne in H1.
    + intros f formats calls msg countries H. discriminate.
Qed.

(** *** Missing keys *)

Lemma well_formed_ref_ok (is_live : pyobj) (video_id : string) (vr : pyobj) :
  well_formed_ref determine_ext vr ->
  exists r, extract_ref is_live video_id vr = Ok r.
Proof.
  intros (d & u & e & -> & Hu & He).
  rewrite (extract_ref_dict _ _ _ _ _ Hu He).
  destruct (String.eqb e "m3u8"); [eauto|].
  destruct (String.eqb e "f4m"); [eauto|].
  destruct (String.eqb e "mpd"); [|eauto].
  destruct (eq_str _ _); eauto.
Qed.

Lemma extract_ref_no_url (is_live : pyobj) (video_id : string) (d : dict) :
  dict_lookup (KStr "url") d = None ->
  extract_ref is_live video_id (PDict d) = Raise (KeyError "url").
Proof.
  intros H. unfold SVTBaseIE.extract_ref, getitem; simpl. now rewrite H.
Qed.

Lemma extract_refs_no_url (is_live : pyobj) (video_id : string)
    (before after : list pyobj) (d : dict) :
  Forall (well_formed_ref determine_ext) before ->
  dict_lookup (KStr "url") d = None ->
  extract_refs is_live video_id (before ++ PDict d :: after) [] []
  = Raise (KeyError "url").
Proof.
  intros Hall Hd. induction Hall as [|vr rest Hvr _ IH].
  - simpl app. rewrite extract_refs_cons, extract_ref_no_url; trivial.
  - simpl app. rewrite extract_refs_cons.
    destruct (well_formed_ref_ok is_live video_id _ Hvr) as [[fs cs] ->].
    now rewrite IH.
Qed.

Lemma extract_refs_url_less_aborts (is_live : pyobj) (video_id : string)
    (refs : list pyobj) (d : dict) :
  In (PDict d) refs ->
  dict_lookup (KStr "url") d = None ->
  exists e, extract_refs is_live video_id refs [] [] = Raise e.
Proof.
  intros Hin Hd. induction refs as [|vr rest IH]; [destruct Hin|].
  rewrite extract_refs_cons. destruct Hin as [-> | Hin].
  - rewrite extract_ref_no_url; eauto.
  - destruct (extract_ref is_live video_id vr) as [[fs cs]|e]; eauto.
    destruct (IH Hin) as (e & ->). eauto.
Qed.

(** C9: a raw mapping without the [videoReferences] key, or with a
    reference that is a mapping without the [url] key (the references
    before it being well formed), makes the loop over the references, and
    so [_extract_video], raise [KeyError]: the geo check and the subtitle
    processing are never reached.  Whatever the other references are, a
    reference without [url] is never skipped: the call raises. *)
Theorem missing_keys_raise_KeyError (video_info : dict) (video_id : string) :
  (dict_lookup (KStr "videoReferences") video_info = None ->
   extract_formats video_info video_id = Raise (KeyError "videoReferences")
   /\ _extract_video video_info video_id = Raise (KeyError "videoReferences"))
  /\ (forall before d after,
        dict_lookup (KStr "videoReferences") video_info
        = Some (PList (before ++ PDict d :: after)) ->
        dict_lookup (KStr "url") d = None ->
        Forall (well_formed_ref determine_ext) before ->
        extract_formats video_info video_id = Raise (KeyError "url")
        /\ _extract_video video_info video_id = Raise (KeyError "url"))
  /\ (forall refs d,
        dict_lookup (KStr "videoReferences") video_info = Some (PList refs) ->
        In (PDict d) refs ->
        dict_lookup (KStr "url") d = None ->
        exists e,
          extract_formats video_info video_id = Raise e
          /\ _extract_video video_info video_id = Raise e).
Proof.
  split; [|split].
  - intros H.
    assert (E : extract_formats video_info video_id
                = Raise (KeyError "videoReferences")).
    { unfold SVTBaseIE.extract_formats, getitem. now rewrite H. }
    split; trivial. unfold SVTBaseIE._extract_video. now rewrite E.
  - intros before d after H Hd Hall.
    assert (E : extract_formats video_info video_id = Raise (KeyError "url")).
    { unfold SVTBaseIE.extract_formats, getitem. rewrite H; simpl.
      now apply extract_refs_no_url. }
    split; trivial. unfold SVTBaseIE._extract_video. now rewrite E.
  - intros refs d H Hin Hd.
    destruct (extract_refs_url_less_aborts (is_live_of video_info) video_id
                refs d Hin Hd) as (e & He).
    exists e.
    assert (E : extract_formats video_info video_id = Raise e).
    { unfold SVTBaseIE.extract_formats, getitem. rewrite H; simpl. exact He. }
    split; trivial. unfold SVTBaseIE._extract_video. now rewrite E.
Qed.

(** *** Merge *)

Lemma merge_dicts_distinct (derived : dict) :
  distinct_keys derived = true ->
  forall base k v,
    In (k, v) derived ->
    dict_lookup k (merge_dicts base derived) =
    if is_empty v then dict_lookup k base else Some v.
Proof.
  induction derived as [|[k0 v0] rest IH]; intros Hd base k v Hin;
    [destruct Hin|].
  simpl in Hd. apply andb_prop in Hd. destruct Hd as [Hk0 Hrest].
  simpl. destruct Hin as [Hin|Hin].
  - inversion Hin; subst. rewrite merge_dicts_other.
    + destruct (is_empty v); trivial.
      now rewrite dict_lookup_set, key_eqb_refl.
    + intros k' v' Hin'. rewrite forallb_forall in Hk0.
      apply Hk0 in Hin'. simpl in Hin'. now apply negb_true_iff in Hin'.
  - rewrite (IH Hrest _ _ _ Hin).
    destruct (is_empty v); trivial.
    destruct (is_empty v0); trivial.
    rewrite dict_lookup_set.
    rewrite forallb_forall in Hk0. apply Hk0 in Hin. simpl in Hin.
    apply negb_true_iff in Hin.
    destruct (key_eqb k k0) eqn:E; trivial.
    exfalso. apply key_eqb_norm in E.
    assert (key_eqb k0 k = true) by (apply key_eqb_norm; congruence).
    congruence.
Qed.

Lemma metadata_fields_distinct (video_info fields : dict) :
  metadata_fields video_info = Ok fields -> distinct_keys fields = true.
Proof.
  unfold SVTBaseIE.metadata_fields. intros H.
  inv_bind H. inversion H; subst. reflexivity.
Qed.

(** C1: in the item [_extract_metadata info video_info] returns, every
    field derived from [video_info] that is present and non-empty replaces
    the field of [info], a derived field that is absent or empty leaves
    the field of [info] as it was, and so does every key that is not a
    derived field; the same holds when the page's [videoPage.video] is
    layered on the item built so far, where its fields win over the ones
    the item already has. *)
Theorem merge_raw_fields_overwrite_base (info video_info fields : dict) :
  metadata_fields video_info = Ok fields ->
  exists merged,
    _extract_metadata info video_info = Ok merged
    /\ (forall k v, In (k, v) fields -> is_empty v = false ->
          dict_lookup k merged = Some v)
    /\ (forall k v, In (k, v) fields -> is_empty v = true ->
          dict_lookup k merged = dict_lookup k info)
    /\ (forall k, (forall k' v, In (k', v) fields -> key_eqb k k' = false) ->
          dict_lookup k merged = dict_lookup k info)
    /\ (forall data,
          truthy data = true ->
          SVTPlayIE.video_page_video data = PDict video_info ->
          video_info <> [] ->
          SVTPlayIE.layer_video_page int_or_none unified_timestamp data info
          = Ok merged).
Proof.
  intros Hf. exists (merge_dicts info fields).
  assert (E : _extract_metadata info video_info = Ok (merge_dicts info fields)).
  { unfold SVTBaseIE._extract_metadata. now rewrite Hf. }
  pose proof (metadata_fields_distinct _ _ Hf) as Hd.
  split; [exact E|]. split; [|split; [|split]].
  - intros k v Hin He. rewrite (merge_dicts_distinct _ Hd _ _ _ Hin).
    now rewrite He.
  - intros k v Hin He. rewrite (merge_dicts_distinct _ Hd _ _ _ Hin).
    now rewrite He.
  - intros k Hk. now apply merge_dicts_other.
  - intros data Ht Hv Hne. unfold SVTPlayIE.layer_video_page.
    rewrite Ht, Hv. destruct video_info as [|entry more]; [congruence|].
    exact E.
Qed.

(** *** Subtitles *)

Lemma tracks_of_setdefault_append (lang k : key) (t : pyobj) (m : subtitle_map) :
  tracks_of lang (setdefault_append k t m) =
  if key_eqb lang k
  then Some (match tracks_of lang m with Some l => l ++ [t] | None => [t] end)
  else tracks_of lang m.
Proof.
  induction m as [|[k0 l0] rest IH]; simpl.
  - reflexivity.
  - destruct (key_eqb k k0) eqn:E; simpl.
    + rewrite (key_eqb_trans_l _ _ lang E).
      destruct (key_eqb lang k0); reflexivity.
    + rewrite IH. destruct (key_eqb lang k0) eqn:F; trivial.
      destruct (key_eqb lang k) eqn:G; trivial.
      exfalso. apply key_eqb_norm in F, G.
      assert (key_eqb k k0 = true) by (apply key_eqb_norm; congruence).
      congruence.
Qed.

Lemma subtitles_loop_spec (srs : list pyobj) :
  Forall (well_formed_subtitle_ref determine_ext) srs ->
  forall m0, exists m,
    subtitles_loop srs m0 = Ok m
    /\ forall lang,
         tracks_of lang m =
         extend_tracks (tracks_of lang m0)
           (language_tracks determine_ext lang srs).
Proof.
  induction 1 as [|sr rest Hsr _ IH]; intros m0.
  - exists m0. split; trivial. intros lang. simpl.
    destruct (tracks_of lang m0); simpl; trivial. now rewrite app_nil_r.
  - destruct Hsr as (d & -> & Hd). simpl.
    destruct (truthy (get d "url")) eqn:Et; simpl; [|apply IH].
    destruct (Hd eq_refl) as (e & He & Hk).
    unfold SVTBaseIE.ext_of, is_m3u8. rewrite He; simpl.
    destruct (String.eqb e "m3u8") eqn:Ee; simpl; [apply IH|].
    apply String.eqb_neq in Ee. destruct (Hk Ee) as (k & Hk').
    unfold has_language.
    change (dict_get_default d "language" (PStr "sv")) with (entry_language d).
    rewrite Hk'; simpl.
    destruct (IH (setdefault_append k (PDict [(KStr "url", get d "url")]) m0))
      as (m & Hm & Hspec).
    exists m. split; trivial. intros lang. rewrite Hspec.
    rewrite tracks_of_setdefault_append.
    destruct (key_eqb lang k); trivial.
    destruct (tracks_of lang m0) as [l|]; simpl.
    + now rewrite <- app_assoc.
    + reflexivity.
Qed.

Lemma language_tracks_kept (lang : key) (srs : list pyobj) (t : pyobj) :
  In t (language_tracks determine_ext lang srs) ->
  exists d,
    In (PDict d) srs /\ t = PDict [(KStr "url", get d "url")]
    /\ truthy (get d "url") = true
    /\ determine_ext (get d "url") <> Some "m3u8"
    /\ hashable (entry_language d) <> Raise (TypeError "unhashable type")
    /\ has_language lang d = true.
Proof.
  induction srs as [|sr rest IH]; simpl; [intros []|].
  destruct sr as [| | | | |d];
    try (intros Hin; destruct (IH Hin) as (d' & Hd' & Hrest);
         exists d'; split; [now right|exact Hrest]).
  destruct (truthy (get d "url")) eqn:Et; simpl;
    [|intros Hin; destruct (IH Hin) as (d' & Hd' & Hrest);
      exists d'; split; [now right|exact Hrest]].
  destruct (is_m3u8 determine_ext (get d "url")) eqn:Em; simpl;
    [intros Hin; destruct (IH Hin) as (d' & Hd' & Hrest);
     exists d'; split; [now right|exact Hrest]|].
  destruct (has_language lang d) eqn:El;
    [|intros Hin; destruct (IH Hin) as (d' & Hd' & Hrest);
      exists d'; split; [now right|exact Hrest]].
  intros [Hin|Hin].
  - exists d. split; [now left|]. split; [now symmetry|]. split; trivial.
    split.
    + unfold is_m3u8 in Em. intros Hc. rewrite Hc in Em. discriminate.
    + split; trivial. unfold has_language in El.
      destruct (hashable (entry_language d)); congruence.
  - destruct (IH Hin) as (d' & Hd' & Hrest).
    exists d'. split; [now right|exact Hrest].
Qed.

(** C5: the subtitle references are the first of [subtitles] and
    [subtitleReferences] that is present with a true value; unless that
    value is a list the subtitle map is empty and nothing is raised; for a
    list of well-formed references the map gives, for each language, the
    entries with a non-empty URL that is not an [m3u8] manifest, in the
    order of the references, where an entry without [language] counts as
    [sv]; a language with no such entry is not in the map. *)
Theorem subtitles_grouped_by_language (video_info : dict) :
  let subtitle_references :=
    dict_get video_info ["subtitles"; "subtitleReferences"] PNone true in
  subtitle_references =
    (if truthy (get video_info "subtitles") then get video_info "subtitles"
     else if truthy (get video_info "subtitleReferences")
          then get video_info "subtitleReferences"
          else PNone)
  /\ (is_list subtitle_references = false ->
      extract_subtitles video_info = Ok [])
  /\ (forall srs,
        subtitle_references = PList srs ->
        Forall (well_formed_subtitle_ref determine_ext) srs ->
        exists m,
          extract_subtitles video_info = Ok m
          /\ (forall lang,
                tracks_of lang m =
                match language_tracks determine_ext lang srs with
                | [] => None
                | tracks => Some tracks
                end)
          /\ (forall lang tracks t,
                tracks_of lang m = Some tracks -> In t tracks ->
                exists d,
                  In (PDict d) srs
                  /\ t = PDict [(KStr "url", get d "url")]
                  /\ truthy (get d "url") = true
                  /\ determine_ext (get d "url") <> Some "m3u8"
                  /\ (dict_lookup (KStr "language") d = None ->
                      key_eqb lang (KStr "sv") = true))).
Proof.
  cbv zeta. split; [|split].
  - now rewrite !dict_get_skip_cons.
  - unfold SVTBaseIE.extract_subtitles.
    destruct (dict_get video_info _ PNone true); simpl; trivial. discriminate.
  - intros srs Hrefs Hall. unfold SVTBaseIE.extract_subtitles. rewrite Hrefs.
    destruct (subtitles_loop_spec _ Hall []) as (m & Hm & Hspec).
    exists m. split; trivial.
    assert (Hlang : forall lang,
              tracks_of lang m =
              match language_tracks determine_ext lang srs with
              | [] => None
              | tracks => Some tracks
              end).
    { intros lang. rewrite Hspec. simpl.
      destruct (language_tracks determine_ext lang srs); reflexivity. }
    split; trivial.
    intros lang tracks t Ht Hin. rewrite Hlang in Ht.
    assert (Hin' : In t (language_tracks determine_ext lang srs)).
    { destruct (language_tracks determine_ext lang srs); [discriminate|].
      inversion Ht; subst. exact Hin. }
    destruct (language_tracks_kept _ _ _ Hin')
      as (d & Hd & -> & Hu & He & _ & Hl).
    exists d. repeat (split; trivial).
    intros Hmissing. unfold has_language, entry_language in Hl.
    now rewrite Hmissing in Hl.
Qed.

End SVTBaseIE_properties.

(** ** URL matchers *)

(** C8: a URL that [SVTIE] claims is refused by [SVTSeriesIE] and by
    [SVTPageIE], and a URL that [SVTPlayIE] claims is refused by
    [SVTSeriesIE], whatever the patterns match. *)
Theorem suitable_mutual_exclusion (re_match : string -> string -> bool)
    (url : string) :
  (SVTIE.suitable re_match url = true ->
   SVTSeriesIE.suitable re_match url = false
   /\ SVTPageIE.suitable re_match url = false)
  /\ (SVTPlayIE.suitable re_match url = true ->
      SVTSeriesIE.suitable re_match url = false).
Proof.
  unfold SVTSeriesIE.suitable, SVTPageIE.suitable. split.
  - intros ->. split; reflexivity.
  - intros ->. now rewrite orb_true_r.
Qed.

(** ** The page extractor *)

Section SVTPageIE_properties.

Variable compat_str : pyobj -> string.
Variable str_or_none : pyobj -> pyobj.
Variable strip_or_none : pyobj -> pyobj.

Local Abbreviation _process_content := (SVTPageIE._process_content compat_str).
Local Abbreviation media_loop := (SVTPageIE.media_loop compat_str).
Local Abbreviation body_loop := (SVTPageIE.body_loop compat_str).
Local Abbreviation _real_extract_article :=
  (SVTPageIE._real_extract_article compat_str str_or_none strip_or_none).

Lemma malformed_node_KeyError (content : pyobj) (entries : list url_result) :
  malformed_video_node content ->
  exists k,
    _process_content content entries = Raise (KeyError k)
    /\ (k = "image" \/ k = "svtId").
Proof.
  intros (d & -> & Ht & Himg).
  unfold SVTPageIE._process_content, getitem; simpl. rewrite Ht.
  destruct Himg as [Himg | (image & Himg & Hid)]; rewrite Himg; simpl.
  - exists "image". auto.
  - rewrite Hid. exists "svtId". auto.
Qed.

Lemma malformed_node_truthy (node : pyobj) :
  malformed_video_node node -> truthy node = true.
Proof.
  intros (d & -> & Ht & _). destruct d as [|entry more]; [discriminate|].
  reflexivity.
Qed.

Lemma media_loop_aborts (media : list pyobj) (node : pyobj) :
  In node media -> malformed_video_node node ->
  forall entries, exists e, media_loop media entries = Raise e.
Proof.
  intros Hin Hbad.
  induction media as [|m rest IH]; [destruct Hin|]. intros entries. simpl.
  destruct Hin as [-> | Hin].
  - destruct (malformed_node_KeyError _ entries Hbad) as (k & -> & _).
    simpl. eauto.
  - destruct (_process_content m entries) as [entries'|e]; simpl; eauto.
Qed.

Lemma body_loop_aborts (body : list pyobj) (o : dict) (node : pyobj) :
  In (PDict o) body -> dict_lookup (KStr "content") o = Some node ->
  malformed_video_node node ->
  forall entries, exists e, body_loop body entries = Raise e.
Proof.
  intros Hin Hc Hbad.
  induction body as [|obj rest IH]; [destruct Hin|]. intros entries. simpl.
  destruct Hin as [-> | Hin].
  - simpl. unfold get, dict_get_default, py_or. rewrite Hc.
    rewrite (malformed_node_truthy _ Hbad).
    destruct (malformed_node_KeyError _ entries Hbad) as (k & -> & _).
    simpl. eauto.
  - destruct (as_dict obj) as [d|e]; simpl; eauto.
    destruct (_process_content _ entries) as [entries'|e]; simpl; eauto.
Qed.

(** C10: a content node tagged [VIDEOCLIP] or [VIDEOEPISODE] that has no
    [image], or whose [image] has no [svtId], makes [_process_content]
    raise [KeyError] instead of skipping the node, and an article that
    carries such a node, in [media] or in [structuredBody], yields no
    playlist: the extraction raises. *)
Theorem malformed_video_node_aborts (node : pyobj) :
  malformed_video_node node ->
  (forall entries,
     exists k,
       _process_content node entries = Raise (KeyError k)
       /\ (k = "image" \/ k = "svtId"))
  /\ (forall a,
        article_has_node a node ->
        exists e, _real_extract_article (PDict a) = Raise e).
Proof.
  intros Hbad. split.
  - intros entries. now apply malformed_node_KeyError.
  - intros a Hhas. unfold SVTPageIE._real_extract_article; simpl.
    destruct Hhas as [(media & Hm & Hin) | (body & o & Hb & Hin & Hc)].
    + unfold dict_get_default at 1. rewrite Hm; simpl.
      destruct (@media_loop_aborts media node Hin Hbad []) as (e & ->).
      simpl. eauto.
    + destruct (py_iter (dict_get_default a "media" (PList [])))
        as [media|e]; simpl; eauto.
      destruct (media_loop media []) as [entries|e]; simpl; eauto.
      unfold dict_get_default. rewrite Hb; simpl.
      destruct (@body_loop_aborts body o node Hin Hc Hbad entries) as (e & ->).
      simpl. eauto.
Qed.

End SVTPageIE_properties.

(** * The properties at sample inputs *)

Lemma merge_raw_fields_overwrite_base_witness :
  exists merged,
    Sample._extract_metadata Sample.item_from_api Sample.page_video = Ok merged
    /\ dict_lookup (KStr "title") merged = Some (PStr "Page title")
    /\ dict_lookup (KStr "description") merged = Some (PStr "API description")
    /\ dict_lookup (KStr "id") merged = Some (PStr "KyVERRZ")
    /\ SVTPlayIE.layer_video_page Sample.int_or_none Sample.unified_timestamp
         Sample.page_data Sample.item_from_api = Ok merged.
Proof.
  destruct (merge_raw_fields_overwrite_base
              Sample.int_or_none Sample.unified_timestamp
              Sample.item_from_api Sample.page_video _ eq_refl)
    as (merged & E & Hover & Hkeep & Hother & Hlayer).
  exists merged. split; [exact E|]. split; [|split; [|split]].
  - apply Hover; [simpl; tauto | reflexivity].
  - rewrite (Hkeep (KStr "description") (PStr EmptyString));
      [reflexivity | simpl; tauto | reflexivity].
  - rewrite (Hother (KStr "id")); [reflexivity|].
    intros k' v Hin. simpl in Hin.
    repeat (destruct Hin as [Hin|Hin]; [inversion Hin; reflexivity|]).
    destruct Hin.
  - apply Hlayer; [reflexivity | reflexivity | discriminate].
Defined.

Lemma geo_restricted_iff_empty_and_blocked_witness :
  Sample._extract_video Sample.video_blocked "5219710"
  = Raise (GeoRestrictedError "This video is only available in Sweden" ["SE"]).
Proof.
  destruct (geo_restricted_iff_empty_and_blocked
              Sample.determine_ext Sample.int_or_none Sample.unified_timestamp
              Sample._extract_m3u8_formats Sample._extract_f4m_formats
              Sample._extract_mpd_formats Sample._sort_formats
              Sample.video_blocked "5219710")
    as (Hiff & Hmsg & _).
  destruct (proj2 Hiff) as (msg & countries & H).
  { split.
    - exists []. reflexivity.
    - exists [(KStr "geoBlockedSweden", PBool true)]. split; reflexivity. }
  destruct (Hmsg _ _ H) as [-> ->]. exact H.
Defined.

Lemma age_limit_from_first_present_witness :
  SVTBaseIE.age_limit_of Sample.video_rated = PInt 0
  /\ SVTBaseIE.age_limit_of Sample.video_direct = PNone.
Proof.
  split.
  - exact (proj1 (age_limit_from_first_present
                    Sample.int_or_none Sample.unified_timestamp
                    Sample.video_rated) false eq_refl).
  - apply (proj1 (proj2 (proj2 (age_limit_from_first_present
                    Sample.int_or_none Sample.unified_timestamp
                    Sample.video_direct)))); left; reflexivity.
Defined.

Lemma mpd_only_for_dashhbbtv_witness :
  SVTBaseIE.extract_ref Sample.determine_ext Sample._extract_m3u8_formats
    Sample._extract_f4m_formats Sample._extract_mpd_formats
    (PBool false) "1376446" (PDict (Sample.ref_dash "dashhbbtv"))
  = Ok (Sample._extract_mpd_formats (PStr "http://cdn.example/manifest.mpd")
          "1376446" (PStr "dashhbbtv"),
        [DASH (PStr "http://cdn.example/manifest.mpd") "1376446"
           (PStr "dashhbbtv")])
  /\ SVTBaseIE.extract_ref Sample.determine_ext Sample._extract_m3u8_formats
       Sample._extract_f4m_formats Sample._extract_mpd_formats
       (PBool false) "1376446" (PDict (Sample.ref_dash "dash"))
     = Ok ([], []).
Proof.
  split.
  - apply (proj1 (mpd_only_for_dashhbbtv
                    Sample.determine_ext Sample._extract_m3u8_formats
                    Sample._extract_f4m_formats Sample._extract_mpd_formats
                    (PBool false) "1376446" (Sample.ref_dash "dashhbbtv")
                    (PStr "http://cdn.example/manifest.mpd")
                    eq_refl eq_refl)).
    reflexivity.
  - apply (proj2 (mpd_only_for_dashhbbtv
                    Sample.determine_ext Sample._extract_m3u8_formats
                    Sample._extract_f4m_formats Sample._extract_mpd_formats
                    (PBool false) "1376446" (Sample.ref_dash "dash")
                    (PStr "http://cdn.example/manifest.mpd")
                    eq_refl eq_refl)).
    discriminate.
Defined.

Lemma subtitle_refs_well_formed :
  Forall (well_formed_subtitle_ref Sample.determine_ext) Sample.subtitle_refs.
Proof.
  unfold Sample.subtitle_refs.
  repeat (apply Forall_cons;
          [eexists; split; [reflexivity|];
           first [ intros H; vm_compute in H; discriminate H
                 | intros _; eexists; split;
                   [reflexivity | intros _; eexists; reflexivity] ] |]).
  apply Forall_nil.
Defined.

Lemma subtitles_grouped_by_language_witness :
  exists m,
    SVTBaseIE.extract_subtitles Sample.determine_ext Sample.video_subtitled
    = Ok m
    /\ tracks_of (KStr "sv") m
       = Some [PDict [(KStr "url", PStr "http://cdn.example/sv.wsrt")];
               PDict [(KStr "url", PStr "http://cdn.example/sv.vtt")]]
    /\ tracks_of (KStr "en") m
       = Some [PDict [(KStr "url", PStr "http://cdn.example/en.vtt")]]
    /\ tracks_of (KStr "fi") m = None.
Proof.
  destruct (proj2 (proj2 (subtitles_grouped_by_language
                            Sample.determine_ext Sample.video_subtitled))
              Sample.subtitle_refs eq_refl subtitle_refs_well_formed)
    as (m & E & Hlang & _).
  exists m. split; [exact E|]. rewrite !Hlang. repeat split; reflexivity.
Defined.

Lemma direct_renditions_one_per_reference_witness :
  SVTBaseIE.extract_formats Sample.determine_ext Sample._extract_m3u8_formats
    Sample._extract_f4m_formats Sample._extract_mpd_formats
    Sample.video_direct "9023742"
  = Ok ([PDict [(KStr "format_id", PStr "flash");
                (KStr "url", PStr "http://cdn.example/v.mp4")];
         PDict [(KStr "format_id", PStr "web");
                (KStr "url", PStr "http://cdn.example/v.webm")]], []).
Proof.
  apply (proj1 (direct_renditions_one_per_reference
                  Sample.determine_ext Sample.int_or_none
                  Sample.unified_timestamp Sample._extract_m3u8_formats
                  Sample._extract_f4m_formats Sample._extract_mpd_formats
                  Sample._sort_formats Sample.video_direct "9023742"
                  [Sample.ref_mp4; Sample.ref_webm] eq_refl
                  ltac:(repeat (apply Forall_cons;
                                [eexists _, _, _;
                                 repeat split; try reflexivity; discriminate|]);
                        apply Forall_nil))).
Defined.

Lemma is_live_or_and_hls_mode_witness :
  SVTBaseIE.is_live_of Sample.video_live = PBool true
  /\ SVTBaseIE.extract_ref Sample.determine_ext Sample._extract_m3u8_formats
       Sample._extract_f4m_formats Sample._extract_mpd_formats
       (SVTBaseIE.is_live_of Sample.video_live) "svt1" Sample.ref_hls
     = Ok (Sample._extract_m3u8_formats
             (PStr "http://cdn.example/master.m3u8?cc=1") "svt1" "mp4" "m3u8"
             (PStr "ios"),
           [HLS (PStr "http://cdn.example/master.m3u8?cc=1") "svt1" "mp4"
              "m3u8" (PStr "ios")]).
Proof.
  destruct (is_live_or_and_hls_mode
              Sample.determine_ext Sample._extract_m3u8_formats
              Sample._extract_f4m_formats Sample._extract_mpd_formats
              Sample.video_live "svt1")
    as (_ & Hbool & Href & _).
  split.
  - apply (Hbool false true); left; reflexivity.
  - exact (Href [(KStr "url", PStr "http://cdn.example/master.m3u8?cc=1");
                 (KStr "playerType", PStr "ios")]
             (PStr "http://cdn.example/master.m3u8?cc=1") eq_refl eq_refl).
Defined.

Lemma suitable_mutual_exclusion_witness :
  let widget :=
    "http://www.svt.se/wd?widgetId=23991&sectionId=541&articleId=2900353" in
  InfoExtractor_suitable Sample.re_match SVTPageIE._VALID_URL widget = true
  /\ SVTSeriesIE.suitable Sample.re_match widget = false
  /\ SVTPageIE.suitable Sample.re_match widget = false
  /\ SVTSeriesIE.suitable Sample.re_match "svt:14278044" = false.
Proof.
  cbv zeta. split; [reflexivity|].
  split; [|split].
  - apply (proj1 (suitable_mutual_exclusion Sample.re_match _)). reflexivity.
  - apply (proj1 (suitable_mutual_exclusion Sample.re_match _)). reflexivity.
  - apply (proj2 (suitable_mutual_exclusion Sample.re_match _)). reflexivity.
Defined.

Lemma missing_keys_raise_KeyError_witness :
  Sample._extract_video Sample.video_rated "5996901"
  = Raise (KeyError "videoReferences")
  /\ Sample._extract_video Sample.video_no_url "5996901"
     = Raise (KeyError "url").
Proof.
  destruct (missing_keys_raise_KeyError
              Sample.determine_ext Sample.int_or_none Sample.unified_timestamp
              Sample._extract_m3u8_formats Sample._extract_f4m_formats
              Sample._extract_mpd_formats Sample._sort_formats
              Sample.video_rated "5996901") as (Hrefs & _ & _).
  destruct (missing_keys_raise_KeyError
              Sample.determine_ext Sample.int_or_none Sample.unified_timestamp
              Sample._extract_m3u8_formats Sample._extract_f4m_formats
              Sample._extract_mpd_formats Sample._sort_formats
              Sample.video_no_url "5996901") as (_ & Hurl & _).
  split.
  - apply Hrefs. reflexivity.
  - apply (Hurl [Sample.ref_mp4] [(KStr "playerType", PStr "flash")]
             [Sample.ref_hls]); [reflexivity | reflexivity |].
    apply Forall_cons; [|apply Forall_nil].
    eexists _, _, _. repeat split; reflexivity.
Defined.

Lemma node_without_image_malformed :
  malformed_video_node Sample.node_without_image.
Proof.
  eexists. split; [reflexivity|]. split; [reflexivity|]. left. reflexivity.
Defined.

Lemma malformed_video_node_aborts_witness :
  (exists k,
     SVTPageIE._process_content Sample.compat_str Sample.node_without_image []
     = Raise (KeyError k) /\ (k = "image" \/ k = "svtId"))
  /\ exists e,
       SVTPageIE._real_extract_article Sample.compat_str Sample.str_or_none
         Sample.strip_or_none (PDict Sample.article) = Raise e.
Proof.
  destruct (malformed_video_node_aborts Sample.compat_str Sample.str_or_none
              Sample.strip_or_none Sample.node_without_image
              node_without_image_malformed) as [Hnode Harticle].
  split; [apply Hnode|]. apply Harticle.
  left. eexists. split; [reflexivity|]. simpl. tauto.
Defined.

(** ** The model on further inputs *)

(** A reference that is not a mapping fails on [vr.get]; the entry without
    a URL after it is not reached. *)
Example bad_entry_raises_AttributeError :
  Sample._extract_video Sample.video_bad_entry "5996901"
  = Raise (AttributeError "get").
Proof. reflexivity. Qed.

(** An empty [subtitles] list is a false value: the references are read
    from [subtitleReferences]. *)
Example empty_subtitles_fall_through :
  SVTBaseIE.extract_subtitles Sample.determine_ext Sample.video_subtitled
  = Ok [(KStr "sv",
         [PDict [(KStr "url", PStr "http://cdn.example/sv.wsrt")];
          PDict [(KStr "url", PStr "http://cdn.example/sv.vtt")]]);
        (KStr "en",
         [PDict [(KStr "url", PStr "http://cdn.example/en.vtt")]])].
Proof. reflexivity. Qed.

(** A subtitle value that is a mapping is ignored. *)
Example mapping_subtitles_ignored :
  SVTBaseIE.extract_subtitles Sample.determine_ext
    [(KStr "subtitles", PDict [(KStr "sv", PStr "http://cdn.example/sv.vtt")]);
     (KStr "subtitleReferences", PList Sample.subtitle_refs)]
  = Ok [].
Proof. reflexivity. Qed.

(** A whole run on a clip with two direct references. *)
Example extract_video_direct :
  Sample._extract_video Sample.video_direct "9023742"
  = Ok ([(KStr "id", PStr "9023742");
         (KStr "formats",
          PList [PDict [(KStr "format_id", PStr "flash");
                        (KStr "url", PStr "http://cdn.example/v.mp4")];
                 PDict [(KStr "format_id", PStr "web");
                        (KStr "url", PStr "http://cdn.example/v.webm")]]);
         (KStr "subtitles", PDict []);
         (KStr "is_live", PBool false);
         (KStr "title", PStr "Clip")], []).
Proof. reflexivity. Qed.

(** The thumbnail placeholder is filled in. *)
Example thumbnail_format_replaced :
  SVTBaseIE.thumbnail_of Sample.page_video
  = Ok (PStr "http://img.example/extralarge/1.jpg").
Proof. reflexivity. Qed.

(** A video node whose [image] is null fails on the subscript. *)
Example null_image_raises_TypeError :
  SVTPageIE._process_content Sample.compat_str
    (PDict [(KStr "_type", PStr "VIDEOCLIP"); (KStr "image", PNone)]) []
  = Raise (TypeError "object is not subscriptable").
Proof. reflexivity. Qed.

(** A well-formed node becomes a forward reference to [SVTPlayIE]. *)
Example clip_node_entry :
  SVTPageIE._process_content Sample.compat_str Sample.node_clip []
  = Ok [mk_url_result "svt:jXvk42E" "SVTPlay" "jXvk42E"].
Proof. reflexivity. Qed.

(** * Further properties of the rendition resolver and the normaliser *)

Lemma dict_set_not_empty (k : key) (v : pyobj) (d : dict) : dict_set k v d <> [].
Proof.
  destruct d as [|[k0 v0] rest]; simpl; [discriminate|].
  destruct (key_eqb k k0); discriminate.
Qed.






Lemma key_eqb_sym (a b : key) : key_eqb a b = key_eqb b a.
Proof.
  destruct (key_eqb a b) eqn:E, (key_eqb b a) eqn:F; trivial.
  - apply key_eqb_norm in E.
    assert (key_eqb b a = true) by (apply key_eqb_norm; congruence).
    congruence.
  - apply key_eqb_norm in F.
    assert (key_eqb a b = true) by (apply key_eqb_norm; congruence).
    congruence.
Qed.

Section SVTBaseIE_further.

Variable determine_ext : pyobj -> option string.
Variable int_or_none : pyobj -> pyobj.
Variable unified_timestamp : pyobj -> pyobj.
Variable _extract_m3u8_formats :
  pyobj -> string -> string -> string -> pyobj -> list pyobj.
Variable _extract_f4m_formats : string -> string -> pyobj -> list pyobj.
Variable _extract_mpd_formats : pyobj -> string -> pyobj -> list pyobj.
Variable _sort_formats : list pyobj -> option (list pyobj).

Local Abbreviation extract_ref :=
  (SVTBaseIE.extract_ref determine_ext _extract_m3u8_formats
     _extract_f4m_formats _extract_mpd_formats).
Local Abbreviation extract_refs :=
  (SVTBaseIE.extract_refs determine_ext _extract_m3u8_formats
     _extract_f4m_formats _extract_mpd_formats).
Local Abbreviation extract_formats :=
  (SVTBaseIE.extract_formats determine_ext _extract_m3u8_formats
     _extract_f4m_formats _extract_mpd_formats).
Local Abbreviation subtitles_loop := (SVTBaseIE.subtitles_loop determine_ext).
Local Abbreviation extract_subtitles := (SVTBaseIE.extract_subtitles determine_ext).
Local Abbreviation metadata_fields :=
  (SVTBaseIE.metadata_fields int_or_none unified_timestamp).
Local Abbreviation _extract_metadata :=
  (SVTBaseIE._extract_metadata int_or_none unified_timestamp).
Local Abbreviation _extract_video :=
  (SVTBaseIE._extract_video determine_ext int_or_none unified_timestamp
     _extract_m3u8_formats _extract_f4m_formats _extract_mpd_formats
     _sort_formats).

(** ** The log of decoder calls *)




(** The loop over a concatenation of reference lists is the loop over the
    first list followed by the loop over the second: renditions and calls
    come in the order of the references, and an error in the first list
    hides the second. *)
Theorem extract_refs_app (is_live : pyobj) (video_id : string)
    (refs1 refs2 : list pyobj) :
  extract_refs is_live video_id (refs1 ++ refs2) [] [] =
  match extract_refs is_live video_id refs1 [] [] with
  | Ok (fs1, cs1) =>
      match extract_refs is_live video_id refs2 [] [] with
      | Ok (fs2, cs2) => Ok (fs1 ++ fs2, cs1 ++ cs2)
      | Raise e => Raise e
      end
  | Raise e => Raise e
  end.
Proof.
  induction refs1 as [|vr rest IH].
  - simpl app.
    destruct (extract_refs is_live video_id refs2 [] []) as [[fs2 cs2]|e];
      reflexivity.
  - simpl app. rewrite !extract_refs_cons, IH.
    destruct (extract_ref is_live video_id vr) as [[f c]|e]; trivial.
    destruct (extract_refs is_live video_id rest [] []) as [[fs1 cs1]|e];
      trivial.
    destruct (extract_refs is_live video_id refs2 [] []) as [[fs2 cs2]|e];
      trivial.
    now rewrite !app_assoc.
Qed.

(** ** The shape of the returned item *)

Lemma other_key_after_merge (info video_info merged : dict) (k : string) :
  _extract_metadata info video_info = Ok merged ->
  In k ["id"; "formats"; "subtitles"; "is_live"] ->
  dict_lookup (KStr k) merged = dict_lookup (KStr k) info.
Proof.
  unfold SVTBaseIE._extract_metadata. intros H Hk. inv_bind H.
  inversion H; subst. apply merge_dicts_other.
  intros k' v Hin.
  pose proof (metadata_fields_keys determine_ext int_or_none
                unified_timestamp _extract_m3u8_formats _extract_mpd_formats
                _ _ _ _ Ha Hin) as Hk'.
  simpl in Hk, Hk'.
  repeat (destruct Hk as [Hk|Hk]; [subst k|]); try contradiction;
    repeat (destruct Hk' as [Hk'|Hk']; [subst k'; reflexivity|]);
    contradiction.
Qed.

Lemma extract_video_base_keys (video_info : dict) (video_id : string)
    (info : dict) (calls : list call) :
  _extract_video video_info video_id = Ok (info, calls) ->
  dict_lookup (KStr "id") info = Some (PStr video_id)
  /\ dict_lookup (KStr "is_live") info
     = Some (SVTBaseIE.is_live_of video_info).
Proof.
  unfold SVTBaseIE._extract_video. intros H.
  inv_bind H. destruct a as [formats calls']. inv_bind H. inv_bind H.
  inv_bind H. inv_bind H. inversion H; subst. split.
  - rewrite (other_key_after_merge _ _ _ "id" Ha3); [reflexivity|simpl; tauto].
  - rewrite (other_key_after_merge _ _ _ "is_live" Ha3);
      [reflexivity|simpl; tauto].
Qed.

(** An item [_extract_video] returns carries the id it was given, the
    live flag of the raw mapping, the ranked renditions of the loop and
    the subtitle map: no derived metadata field ever replaces them, and
    the call log is the one of the loop. *)
Theorem extract_video_item_keys (video_info : dict) (video_id : string)
    (info : dict) (calls : list call) :
  _extract_video video_info video_id = Ok (info, calls) ->
  dict_lookup (KStr "id") info = Some (PStr video_id)
  /\ dict_lookup (KStr "is_live") info
     = Some (SVTBaseIE.is_live_of video_info)
  /\ (exists formats sorted,
        extract_formats video_info video_id = Ok (formats, calls)
        /\ _sort_formats formats = Some sorted
        /\ dict_lookup (KStr "formats") info = Some (PList sorted))
  /\ (exists subtitles,
        extract_subtitles video_info = Ok subtitles
        /\ dict_lookup (KStr "subtitles") info
           = Some (subtitle_map_obj subtitles)).
Proof.
  unfold SVTBaseIE._extract_video. intros H.
  inv_bind H. destruct a as [formats calls']. inv_bind H. inv_bind H.
  inv_bind H. inv_bind H. inversion H; subst.
  unfold SVTBaseIE.sort_formats in Ha1.
  destruct (_sort_formats formats) as [sorted|] eqn:Es; [|discriminate].
  inversion Ha1; subst.
  split; [|split; [|split]].
  - rewrite (other_key_after_merge _ _ _ "id" Ha3); [reflexivity|simpl; tauto].
  - rewrite (other_key_after_merge _ _ _ "is_live" Ha3);
      [reflexivity|simpl; tauto].
  - exists formats, a0. repeat split; trivial.
    rewrite (other_key_after_merge _ _ _ "formats" Ha3);
      [reflexivity|simpl; tauto].
  - exists a1. split; trivial.
    rewrite (other_key_after_merge _ _ _ "subtitles" Ha3);
      [reflexivity|simpl; tauto].
Qed.

(** ** Thumbnail, timestamp and duration *)



Lemma try_get_validFrom (video_info : dict) :
  try_get (PDict video_info)
    [ (fun x => getitem x "validFrom");
      (fun x => r <- getitem x "rights" ;; getitem r "validFrom") ]
    None
  = timestamp_source video_info.
Proof.
  unfold timestamp_source, get, dict_get_default. simpl.
  destruct (dict_lookup (KStr "validFrom") video_info) as [v|]; trivial.
  destruct (dict_lookup (KStr "rights") video_info) as [r|]; trivial.
  destruct r as [| | | | |rights]; simpl; trivial.
  destruct (dict_lookup (KStr "validFrom") rights); reflexivity.
Qed.

(** The timestamp is parsed from [validFrom] whenever that key is there,
    even when its value is null, and from [rights.validFrom] only when
    the key is missing; the duration is converted from the first true
    value of [materialLength] and [contentDuration], so that a
    [materialLength] of 0 gives way to [contentDuration]. *)
Theorem timestamp_and_duration_sources (video_info fields : dict) :
  metadata_fields video_info = Ok fields ->
  dict_lookup (KStr "timestamp") fields
  = Some (unified_timestamp (timestamp_source video_info))
  /\ dict_lookup (KStr "duration") fields
     = Some (int_or_none (duration_source video_info)).
Proof.
  unfold SVTBaseIE.metadata_fields. intros H. inv_bind H.
  rewrite try_get_validFrom, !dict_get_skip_cons in H.
  inversion H; subst. split; reflexivity.
Qed.


(** ** The subtitle map *)

Lemma forallb_setdefault_append (P : key -> bool) (lang : key) (t : pyobj)
    (m : subtitle_map) :
  P lang = true ->
  forallb (fun kl => P (fst kl)) m = true ->
  forallb (fun kl => P (fst kl)) (setdefault_append lang t m) = true.
Proof.
  intros Hl. induction m as [|[k l] rest IH]; simpl; intros H.
  - now rewrite Hl.
  - apply andb_prop in H. destruct H as [Hk Hrest].
    destruct (key_eqb lang k); simpl; rewrite Hk; simpl; auto.
Qed.

Lemma distinct_languages_setdefault_append (lang : key) (t : pyobj)
    (m : subtitle_map) :
  distinct_languages m = true ->
  distinct_languages (setdefault_append lang t m) = true.
Proof.
  induction m as [|[k l] rest IH]; simpl; intros H; trivial.
  apply andb_prop in H. destruct H as [Hk Hrest].
  destruct (key_eqb lang k) eqn:E; simpl.
  - now rewrite Hk, Hrest.
  - rewrite (IH Hrest), andb_true_r.
    apply (forallb_setdefault_append (fun k' => negb (key_eqb k k'))); trivial.
    now rewrite key_eqb_sym, E.
Qed.

Lemma good_groups_setdefault_append (lang : key) (t : pyobj)
    (m : subtitle_map) :
  is_track t -> Forall good_group m ->
  Forall good_group (setdefault_append lang t m).
Proof.
  intros Ht. induction 1 as [|[k l] rest [Hne Hl] Hrest IH]; simpl.
  - repeat constructor; [discriminate | exact Ht].
  - destruct (key_eqb lang k).
    + constructor; [|exact Hrest]. split; simpl in *.
      * destruct l; discriminate.
      * apply Forall_app. split; trivial. now constructor.
    + constructor; [now split | exact IH].
Qed.

Lemma subtitles_loop_invariant (srs : list pyobj) :
  forall m0 m,
    subtitles_loop srs m0 = Ok m ->
    distinct_languages m0 = true -> Forall good_group m0 ->
    distinct_languages m = true /\ Forall good_group m.
Proof.
  induction srs as [|sr rest IH]; intros m0 m H Hd Hg.
  - inversion H; subst. now split.
  - simpl in H. inv_bind H.
    destruct (truthy (get a "url")) eqn:Et; [|eapply IH; eauto].
    inv_bind H.
    destruct (String.eqb a0 "m3u8"); [eapply IH; eauto|].
    inv_bind H. eapply IH; [exact H| |].
    + now apply distinct_languages_setdefault_append.
    + apply good_groups_setdefault_append; trivial.
      eexists. split; [reflexivity|exact Et].
Qed.

(** Whatever the raw mapping holds, a subtitle map that is returned has
    every language once, no empty group, and in every group only tracks
    of the form [{'url': u}] with a non-empty [u]. *)
Theorem subtitle_map_invariant (video_info : dict) (m : subtitle_map) :
  extract_subtitles video_info = Ok m ->
  distinct_languages m = true /\ Forall good_group m.
Proof.
  unfold SVTBaseIE.extract_subtitles. intros H.
  destruct (dict_get video_info _ PNone true) as [| | | |srs|];
    try (inversion H; subst; split; [reflexivity|constructor]).
  eapply subtitles_loop_invariant; [exact H|reflexivity|constructor].
Qed.

End SVTBaseIE_further.

(** * The series extractor *)

Section SVTSeriesIE_properties.

Variable compat_str : pyobj -> string.

Local Abbreviation item_entry := SVTSeriesIE_Extract.item_entry.
Local Abbreviation items_loop := SVTSeriesIE_Extract.items_loop.
Local Abbreviation season_step := SVTSeriesIE_Extract.season_step.
Local Abbreviation seasons_loop := SVTSeriesIE_Extract.seasons_loop.
Local Abbreviation selector := SVTSeriesIE_Extract.selector.
Local Abbreviation percent_s := (SVTSeriesIE_Extract.percent_s compat_str).
Local Abbreviation _real_extract_series :=
  (SVTSeriesIE_Extract._real_extract_series compat_str).

Lemma item_entry_cases (item : pyobj) (entries : list url_result) :
  item_entry item entries =
  match item with
  | PDict d =>
      match py_or (get d "item") (PDict []) with
      | PDict _ =>
          Ok (match content_id_of item with
              | Some id => entries ++ [forward_reference id]
              | None => entries
              end)
      | _ => Raise (AttributeError "get")
      end
  | _ => Raise (AttributeError "get")
  end.
Proof.
  unfold SVTSeriesIE_Extract.item_entry, content_id_of.
  destruct item as [| | | | |d]; simpl; trivial.
  destruct (py_or (get d "item") (PDict [])) as [| | | | |video]; simpl; trivial.
  destruct (get video "videoSvtId") as [| | |s| |]; trivial.
  destruct s; reflexivity.
Qed.

Lemma content_id_not_empty (item : pyobj) (id : string) :
  content_id_of item = Some id -> id <> EmptyString.
Proof.
  unfold content_id_of. destruct item as [| | | | |d]; try discriminate.
  destruct (py_or (get d "item") (PDict [])) as [| | | | |video];
    try discriminate.
  destruct (get video "videoSvtId") as [| | |s| |]; try discriminate.
  destruct s; [discriminate|]. intros H. inversion H. discriminate.
Qed.

Lemma items_loop_well_formed (items : list pyobj) :
  Forall well_formed_item items ->
  forall entries,
    items_loop items entries
    = Ok (entries ++ map forward_reference (content_ids items)).
Proof.
  induction 1 as [|item rest (d & video & -> & Hv) _ IH]; intros entries; simpl.
  - now rewrite app_nil_r.
  - rewrite item_entry_cases, Hv. simpl. rewrite IH.
    unfold content_id_of. rewrite Hv.
    destruct (get video "videoSvtId") as [| | |s| |]; trivial.
    destruct s; trivial. simpl. now rewrite <- app_assoc.
Qed.

Lemma items_loop_error (items : list pyobj) :
  forall entries e,
    items_loop items entries = Raise e -> e = AttributeError "get".
Proof.
  induction items as [|item rest IH]; intros entries e; simpl; [discriminate|].
  rewrite item_entry_cases.
  destruct item as [| | | | |d]; simpl; try congruence.
  destruct (py_or (get d "item") (PDict [])); simpl; try congruence.
  apply IH.
Qed.

Lemma items_loop_references (items : list pyobj) :
  forall entries entries',
    items_loop items entries = Ok entries' ->
    Forall proper_reference entries -> Forall proper_reference entries'.
Proof.
  induction items as [|item rest IH]; intros entries entries'; simpl.
  - intros H. now inversion H.
  - rewrite item_entry_cases.
    destruct item as [| | | | |d]; cbn [bind]; try discriminate.
    destruct (py_or (get d "item") (PDict [])) eqn:Ev; cbn [bind];
      try discriminate.
    intros H Hall. apply (IH _ _ H).
    destruct (content_id_of (PDict d)) as [id|] eqn:Eid; trivial.
    apply Forall_app. split; trivial. constructor; [|constructor].
    exists id. split; trivial. now apply (content_id_not_empty (PDict d)).
Qed.

Lemma items_loop_aborts (items : list pyobj) (item : pyobj) :
  In item items -> is_dict item = false ->
  forall entries, items_loop items entries = Raise (AttributeError "get").
Proof.
  intros Hin Hitem. induction items as [|i rest IH]; [destruct Hin|].
  intros entries. simpl. destruct Hin as [-> | Hin].
  - rewrite item_entry_cases. destruct item; try reflexivity. discriminate.
  - destruct (item_entry i entries) as [entries'|e] eqn:E; simpl.
    + now apply IH.
    + rewrite item_entry_cases in E.
      destruct i; try congruence.
      destruct (py_or (get d "item") (PDict [])); congruence.
Qed.

(** One turn of the outer loop, by whether the season is selected. *)
Lemma season_step_cases (season_id : option string) (season : pyobj)
    (season_name : pyobj) (entries : list url_result) :
  season_step season_id season (season_name, entries) =
  if season_selected season_id season then
    match items_loop (season_items season) entries with
    | Ok entries' =>
        Ok (match selector season_id, season with
            | Some _, PDict d => get d "name"
            | _, _ => season_name
            end, entries')
    | Raise e => Raise e
    end
  else Ok (season_name, entries).
Proof.
  unfold SVTSeriesIE_Extract.season_step, season_selected, season_items.
  destruct season as [| | | | |d]; trivial.
  destruct (selector season_id) as [s|].
  - destruct (eq_str (get d "id") s); trivial.
    destruct (get d "items"); trivial;
      try (simpl; destruct (items_loop _ entries); reflexivity).
  - destruct (get d "items"); trivial;
      try (simpl; destruct (items_loop _ entries); reflexivity).
Qed.

Lemma seasons_loop_well_formed (season_id : option string)
    (seasons : list pyobj) :
  (forall season,
     In season seasons -> season_selected season_id season = true ->
     Forall well_formed_item (season_items season)) ->
  forall season_name entries,
    exists season_name',
      seasons_loop season_id seasons (season_name, entries)
      = Ok (season_name',
            entries ++ map forward_reference (selected_ids season_id seasons)).
Proof.
  unfold selected_ids.
  induction seasons as [|season rest IH]; intros Hwf season_name entries.
  - exists season_name. simpl. now rewrite app_nil_r.
  - cbn [SVTSeriesIE_Extract.seasons_loop]. rewrite season_step_cases.
    cbn [filter].
    destruct (season_selected season_id season) eqn:Es.
    + rewrite (items_loop_well_formed _ (Hwf season (or_introl eq_refl) Es)).
      cbn [bind flat_map].
      match goal with
      | |- context [seasons_loop _ _ (?n, ?es)] =>
          destruct (IH (fun s Hin => Hwf s (or_intror Hin)) n es)
            as (n' & ->)
      end.
      exists n'. now rewrite map_app, app_assoc.
    + cbn [bind]. apply IH. intros s Hin. apply Hwf. now right.
Qed.

Lemma seasons_loop_error (season_id : option string) (seasons : list pyobj) :
  forall state e,
    seasons_loop season_id seasons state = Raise e ->
    e = AttributeError "get".
Proof.
  induction seasons as [|season rest IH]; intros [season_name entries] e;
    [discriminate|].
  cbn [SVTSeriesIE_Extract.seasons_loop]. rewrite season_step_cases.
  destruct (season_selected season_id season).
  - destruct (items_loop (season_items season) entries) eqn:E; cbn [bind].
    + apply IH.
    + intros H. inversion H; subst. eapply items_loop_error; eauto.
  - cbn [bind]. apply IH.
Qed.

Lemma seasons_loop_references (season_id : option string)
    (seasons : list pyobj) :
  forall season_name entries season_name' entries',
    seasons_loop season_id seasons (season_name, entries)
    = Ok (season_name', entries') ->
    Forall proper_reference entries -> Forall proper_reference entries'.
Proof.
  induction seasons as [|season rest IH];
    intros season_name entries season_name' entries'.
  - intros H. now inversion H.
  - cbn [SVTSeriesIE_Extract.seasons_loop]. rewrite season_step_cases.
    destruct (season_selected season_id season).
    + destruct (items_loop (season_items season) entries) eqn:E; cbn [bind];
        [|discriminate].
      intros H Hall. apply (IH _ _ _ _ H).
      eapply items_loop_references; eauto.
    + cbn [bind]. apply IH.
Qed.

Lemma seasons_loop_aborts (season_id : option string) (seasons : list pyobj)
    (season item : pyobj) :
  In season seasons -> season_selected season_id season = true ->
  In item (season_items season) -> is_dict item = false ->
  forall state,
    seasons_loop season_id seasons state = Raise (AttributeError "get").
Proof.
  intros Hin Hsel Hitem Hbad.
  induction seasons as [|s rest IH]; [destruct Hin|].
  intros [season_name entries].
  cbn [SVTSeriesIE_Extract.seasons_loop]. rewrite season_step_cases.
  destruct Hin as [-> | Hin].
  - rewrite Hsel, (items_loop_aborts _ _ Hitem Hbad). reflexivity.
  - destruct (season_selected season_id s).
    + destruct (items_loop (season_items s) entries) eqn:E; cbn [bind].
      * now apply IH.
      * f_equal. eapply items_loop_error; eauto.
    + cbn [bind]. now apply IH.
Qed.

(** When the items of the selected seasons are well formed, the playlist
    is returned and its entries are the forward references of the content
    ids of the selected seasons, season by season and item by item, in
    order and with repetitions; a season that is not selected is not
    looked into. *)
Theorem series_entries_in_order (series : dict) (season_id : option string)
    (seasons : list pyobj) :
  dict_lookup (KStr "associatedContent") series = Some (PList seasons) ->
  (forall season,
     In season seasons -> season_selected season_id season = true ->
     Forall well_formed_item (season_items season)) ->
  exists playlist,
    _real_extract_series (PDict series) season_id = Ok playlist
    /\ dp_entries playlist
       = map forward_reference (selected_ids season_id seasons).
Proof.
  intros Hc Hwf. unfold SVTSeriesIE_Extract._real_extract_series, getitem.
  rewrite Hc. cbn [bind py_iter].
  destruct (seasons_loop_well_formed season_id seasons Hwf PNone [])
    as (name & ->).
  cbn [bind as_dict]. eexists. split; reflexivity.
Qed.

(** Every entry of a returned playlist is a forward reference
    [svt:<id>] to [SVTPlayIE] with a non-empty text id, whatever the
    series document holds. *)
Theorem series_entries_are_forward_references (series : pyobj)
    (season_id : option string) (playlist : described_playlist) :
  _real_extract_series series season_id = Ok playlist ->
  Forall proper_reference (dp_entries playlist).
Proof.
  unfold SVTSeriesIE_Extract._real_extract_series. intros H.
  inv_bind H. inv_bind H. inv_bind H. destruct a1 as [name entries].
  inv_bind H. inversion H; subst. simpl.
  eapply seasons_loop_references; [exact Ha1|constructor].
Qed.

Lemma Ok_inj {A : Type} (a b : A) : Ok a = Ok b -> a = b.
Proof. intros H. now inversion H. Qed.

Lemma seasons_loop_keeps_name (season_id : option string)
    (seasons : list pyobj) :
  selector season_id = None ->
  forall season_name entries season_name' entries',
    seasons_loop season_id seasons (season_name, entries)
    = Ok (season_name', entries') ->
    season_name' = season_name.
Proof.
  intros Hsel.
  induction seasons as [|season rest IH];
    intros season_name entries season_name' entries'.
  - intros H. now inversion H.
  - cbn [SVTSeriesIE_Extract.seasons_loop]. rewrite season_step_cases, Hsel.
    destruct (season_selected season_id season).
    + destruct (items_loop (season_items season) entries); cbn [bind];
        [apply IH | discriminate].
    + cbn [bind]. apply IH.
Qed.

(** With a season selector the playlist id is the selector and the title
    is always a text; without one the id and the title are the series'
    own [id] and [name].  The description is the long one, or else the
    short one. *)
Theorem series_playlist_id_and_title (series : dict)
    (season_id : option string) (playlist : described_playlist) :
  _real_extract_series (PDict series) season_id = Ok playlist ->
  match selector season_id with
  | Some s =>
      dp_id playlist = PStr s /\ exists text, dp_title playlist = PStr text
  | None =>
      dp_id playlist = get series "id"
      /\ dp_title playlist = get series "name"
  end
  /\ dp_description playlist
     = first_true [get series "longDescription"; get series "shortDescription"]
         PNone.
Proof.
  unfold SVTSeriesIE_Extract._real_extract_series. intros H.
  inv_bind H. inv_bind H. inv_bind H. destruct a1 as [name entries].
  cbn [bind as_dict] in H. apply Ok_inj in H. subst playlist.
  cbn [dp_id dp_title dp_description]. split.
  - unfold SVTSeriesIE_Extract.playlist_title.
    destruct (selector season_id) as [s|] eqn:Esel.
    + assert (Hobj : SVTSeriesIE_Extract.season_obj season_id = PStr s
                     /\ truthy (PStr s) = true).
      { destruct season_id as [[|c rest]|]; try discriminate.
        inversion Esel; subst. split; reflexivity. }
      destruct Hobj as [-> Hs]. unfold py_or at 1. rewrite Hs.
      split; [reflexivity|].
      destruct (truthy (get series "name") && _); eauto.
    + rewrite (seasons_loop_keeps_name season_id a0 Esel _ _ _ _ Ha1).
      assert (Hobj : truthy (SVTSeriesIE_Extract.season_obj season_id) = false).
      { destruct season_id as [[|c rest]|]; try discriminate; reflexivity. }
      unfold py_or. rewrite Hobj. cbn [truthy]. rewrite Hobj.
      now rewrite andb_false_r.
  - rewrite !dict_get_skip_cons. reflexivity.
Qed.

(** A selector that matches no season is not an error: the playlist is
    empty, has the selector as id, and is titled [<name> - <selector>],
    or with the selector alone when the series has no name. *)
Theorem unknown_season_gives_empty_playlist (series : dict) (s : string)
    (seasons : list pyobj) :
  s <> EmptyString ->
  dict_lookup (KStr "associatedContent") series = Some (PList seasons) ->
  (forall season, In season seasons -> season_selected (Some s) season = false) ->
  exists playlist,
    _real_extract_series (PDict series) (Some s) = Ok playlist
    /\ dp_entries playlist = []
    /\ dp_id playlist = PStr s
    /\ dp_title playlist
       = if truthy (get series "name")
         then PStr (percent_s (get series "name") ++ " - " ++ s)
         else PStr s.
Proof.
  intros Hs Hc Hnone.
  assert (Hloop : forall state,
            seasons_loop (Some s) seasons state = Ok state).
  { clear Hc. induction seasons as [|season rest IH]; intros [n es]; trivial.
    cbn [SVTSeriesIE_Extract.seasons_loop]. rewrite season_step_cases.
    rewrite (Hnone season (or_introl eq_refl)). cbn [bind].
    apply IH. intros x Hin. apply Hnone. now right. }
  unfold SVTSeriesIE_Extract._real_extract_series, getitem.
  rewrite Hc. cbn [bind py_iter]. rewrite Hloop. cbn [bind as_dict].
  eexists. split; [reflexivity|]. cbn [dp_entries dp_id dp_title].
  destruct s as [|c rest]; [congruence|].
  repeat split.
  unfold SVTSeriesIE_Extract.playlist_title. simpl.
  destruct (truthy (get series "name")); reflexivity.
Qed.

(** An item that is not a mapping, in a selected season, is not skipped:
    the extraction raises [AttributeError], the only error the walk over
    the seasons can raise. *)
Theorem series_item_not_mapping_aborts (series : dict)
    (season_id : option string) (seasons : list pyobj) (season item : pyobj) :
  dict_lookup (KStr "associatedContent") series = Some (PList seasons) ->
  In season seasons -> season_selected season_id season = true ->
  In item (season_items season) -> is_dict item = false ->
  _real_extract_series (PDict series) season_id
  = Raise (AttributeError "get").
Proof.
  intros Hc Hin Hsel Hitem Hbad.
  unfold SVTSeriesIE_Extract._real_extract_series, getitem.
  rewrite Hc. cbn [bind py_iter].
  now rewrite (seasons_loop_aborts season_id seasons season item
                 Hin Hsel Hitem Hbad).
Qed.

End SVTSeriesIE_properties.

(** * Further properties of the page extractor *)

Section SVTPageIE_further.

Variable compat_str : pyobj -> string.
Variable str_or_none : pyobj -> pyobj.
Variable strip_or_none : pyobj -> pyobj.

Local Abbreviation _process_content := (SVTPageIE._process_content compat_str).
Local Abbreviation media_loop := (SVTPageIE.media_loop compat_str).
Local Abbreviation body_loop := (SVTPageIE.body_loop compat_str).
Local Abbreviation _real_extract_article :=
  (SVTPageIE._real_extract_article compat_str str_or_none strip_or_none).

Lemma process_well_formed_node (node : pyobj) (entries : list url_result) :
  well_formed_node node ->
  _process_content node entries = Ok (entries ++ node_entries compat_str node).
Proof.
  intros (d & -> & Hv).
  unfold SVTPageIE._process_content, node_entries, getitem. cbn [bind as_dict].
  destruct (SVTPageIE.is_video_type (get d "_type")).
  - destruct (Hv eq_refl) as (image & id & -> & Hid).
    cbn [bind]. rewrite Hid. reflexivity.
  - now rewrite app_nil_r.
Qed.

Lemma media_loop_well_formed (media : list pyobj) :
  Forall well_formed_node media ->
  forall entries,
    media_loop media entries
    = Ok (entries ++ flat_map (node_entries compat_str) media).
Proof.
  induction 1 as [|node rest Hnode _ IH]; intros entries; simpl.
  - now rewrite app_nil_r.
  - rewrite (process_well_formed_node _ _ Hnode). cbn [bind].
    now rewrite IH, app_assoc.
Qed.

Lemma body_loop_well_formed (body : list pyobj) :
  Forall well_formed_body_entry body ->
  forall entries,
    body_loop body entries
    = Ok (entries
          ++ flat_map (fun obj => node_entries compat_str (body_content obj))
               body).
Proof.
  induction 1 as [|obj rest [(o & ->) Hnode] _ IH]; intros entries; simpl.
  - now rewrite app_nil_r.
  - cbn [body_content] in Hnode.
    rewrite (process_well_formed_node _ _ Hnode). cbn [bind].
    now rewrite IH, app_assoc.
Qed.

Lemma py_iter_list_or_default (a : dict) (k : string) (l : list pyobj) :
  list_or_default a k = Some l ->
  py_iter (dict_get_default a k (PList [])) = Ok l.
Proof.
  unfold list_or_default, dict_get_default.
  destruct (dict_lookup (KStr k) a) as [v|].
  - destruct v; try discriminate. intros H. now inversion H.
  - intros H. now inversion H.
Qed.

(** For an article whose nodes are well formed the playlist is returned:
    its entries are the video nodes of [media], then those of
    [structuredBody], each list in its own order, duplicates kept; nodes
    of another type, and body entries without content, add nothing; a
    missing list counts as empty. *)
Theorem page_entries_in_order (a : dict) (media body : list pyobj) :
  list_or_default a "media" = Some media ->
  list_or_default a "structuredBody" = Some body ->
  Forall well_formed_node media ->
  Forall well_formed_body_entry body ->
  _real_extract_article (PDict a)
  = Ok (mk_playlist_result
          (flat_map (node_entries compat_str) media
           ++ flat_map (fun obj => node_entries compat_str (body_content obj))
                body)
          (str_or_none (get a "id")) (strip_or_none (get a "title"))).
Proof.
  intros Hm Hb Hmedia Hbody.
  unfold SVTPageIE._real_extract_article. cbn [bind as_dict].
  rewrite (py_iter_list_or_default _ _ _ Hm). cbn [bind].
  rewrite (media_loop_well_formed _ Hmedia). cbn [bind].
  rewrite (py_iter_list_or_default _ _ _ Hb). cbn [bind].
  rewrite (body_loop_well_formed _ Hbody). reflexivity.
Qed.


End SVTPageIE_further.

(** * The single-video and play extractors *)

Section Extractors_properties.

Variable determine_ext : pyobj -> option string.
Variable int_or_none : pyobj -> pyobj.
Variable unified_timestamp : pyobj -> pyobj.
Variable _extract_m3u8_formats :
  pyobj -> string -> string -> string -> pyobj -> list pyobj.
Variable _extract_f4m_formats : string -> string -> pyobj -> list pyobj.
Variable _extract_mpd_formats : pyobj -> string -> pyobj -> list pyobj.
Variable _sort_formats : list pyobj -> option (list pyobj).
Variable _download_json : string -> result pyobj.
Variable _download_webpage : string -> result string.
Variable embedded_data : string -> pyobj.
Variable _search_video_id : string -> result string.
Variable page_title : string -> result string.
Variable _og_search_thumbnail : string -> pyobj.
Variable _live_title : pyobj -> pyobj.

Local Abbreviation _extract_video :=
  (SVTBaseIE._extract_video determine_ext int_or_none unified_timestamp
     _extract_m3u8_formats _extract_f4m_formats _extract_mpd_formats
     _sort_formats).
Local Abbreviation _extract_video_untyped :=
  (SVTBaseIE_untyped._extract_video determine_ext int_or_none
     unified_timestamp _extract_m3u8_formats _extract_f4m_formats
     _extract_mpd_formats _sort_formats).
Local Abbreviation widget_extract :=
  (SVTIE_Extract._real_extract determine_ext int_or_none unified_timestamp
     _extract_m3u8_formats _extract_f4m_formats _extract_mpd_formats
     _sort_formats _download_json).
Local Abbreviation _adjust_title := (SVTPlayIE_Extract._adjust_title _live_title).
Local Abbreviation fallback_title := (SVTPlayIE_Extract.fallback_title page_title).
Local Abbreviation _extract_by_video_id :=
  (SVTPlayIE_Extract._extract_by_video_id determine_ext int_or_none
     unified_timestamp _extract_m3u8_formats _extract_f4m_formats
     _extract_mpd_formats _sort_formats _download_json page_title _live_title).
Local Abbreviation from_store :=
  (SVTPlayIE_Extract.from_store determine_ext int_or_none unified_timestamp
     _extract_m3u8_formats _extract_f4m_formats _extract_mpd_formats
     _sort_formats _live_title).
Local Abbreviation backfill_thumbnail :=
  (SVTPlayIE_Extract.backfill_thumbnail _og_search_thumbnail).
Local Abbreviation layer_video_page :=
  (SVTPlayIE.layer_video_page int_or_none unified_timestamp).
Local Abbreviation play_extract :=
  (SVTPlayIE_Extract._real_extract determine_ext int_or_none unified_timestamp
     _extract_m3u8_formats _extract_f4m_formats _extract_mpd_formats
     _sort_formats _download_json _download_webpage embedded_data
     _search_video_id page_title _og_search_thumbnail _live_title).

Lemma truthy_get_lookup (d : dict) (k : string) :
  truthy (get d k) = true -> dict_lookup (KStr k) d = Some (get d k).
Proof.
  unfold get, dict_get_default.
  destruct (dict_lookup (KStr k) d); [reflexivity|discriminate].
Qed.

(** ** The widget extractor *)

(** The item of a widget URL is the one [_extract_video] builds from the
    document's [video], except for its title, which is always the
    document's [context.title]; its id is the article id of the URL. *)
Theorem widget_item_title_and_id (widget_id article_id : string)
    (info title : pyobj) (video base : dict) (calls : list call) :
  _download_json (SVTIE_Extract.widget_url widget_id article_id) = Ok info ->
  getitem info "video" = Ok (PDict video) ->
  _extract_video video article_id = Ok (base, calls) ->
  getpath info ["context"; "title"] = Ok title ->
  exists item,
    widget_extract widget_id article_id = Ok (item, calls)
    /\ dict_lookup (KStr "title") item = Some title
    /\ dict_lookup (KStr "id") item = Some (PStr article_id)
    /\ (forall k, key_eqb k (KStr "title") = false ->
          dict_lookup k item = dict_lookup k base).
Proof.
  intros Hd Hv Hb Ht. unfold SVTIE_Extract._real_extract.
  rewrite Hd. cbn [bind]. rewrite Hv. cbn [bind SVTBaseIE_untyped._extract_video].
  rewrite Hb. cbn [bind].
  cbn [getpath] in Ht.
  destruct (getitem info "context") as [context|e]; [|discriminate].
  cbn [bind] in *.
  destruct (getitem context "title") as [t|e]; [|discriminate].
  cbn [bind] in *. apply Ok_inj in Ht. subst t.
  eexists. split; [reflexivity|]. split; [|split].
  - now rewrite dict_lookup_set, key_eqb_refl.
  - rewrite dict_lookup_set. cbn [key_eqb String.eqb Ascii.eqb Bool.eqb].
    apply (extract_video_base_keys determine_ext int_or_none
             unified_timestamp _extract_m3u8_formats _extract_f4m_formats
             _extract_mpd_formats _sort_formats _ _ _ _ Hb).
  - intros k Hk. now rewrite dict_lookup_set, Hk.
Qed.

(** The errors of the widget extractor: a document without [video]
    raises [KeyError]; an error of [_extract_video], the geo restriction
    among them, reaches the caller whatever [context] holds; a document
    without [context] raises [KeyError] only once the video has been
    extracted. *)
Theorem widget_errors (widget_id article_id : string) (info : dict) :
  _download_json (SVTIE_Extract.widget_url widget_id article_id)
  = Ok (PDict info) ->
  (dict_lookup (KStr "video") info = None ->
   widget_extract widget_id article_id = Raise (KeyError "video"))
  /\ (forall video e,
        dict_lookup (KStr "video") info = Some video ->
        _extract_video_untyped video article_id = Raise e ->
        widget_extract widget_id article_id = Raise e)
  /\ (forall video item,
        dict_lookup (KStr "video") info = Some video ->
        _extract_video_untyped video article_id = Ok item ->
        dict_lookup (KStr "context") info = None ->
        widget_extract widget_id article_id = Raise (KeyError "context")).
Proof.
  intros Hd. unfold SVTIE_Extract._real_extract. rewrite Hd.
  cbn [bind getitem]. split; [|split].
  - intros ->. reflexivity.
  - intros video e -> He. cbn [bind]. now rewrite He.
  - intros video [item calls] -> Hv Hc. cbn [bind]. rewrite Hv. cbn [bind].
    now rewrite Hc.
Qed.

(** ** Titles of the play extractor *)

Lemma adjust_title_lookup (info : dict) (is_live title : pyobj) :
  dict_lookup (KStr "is_live") info = Some is_live ->
  dict_lookup (KStr "title") info = Some title ->
  exists item,
    _adjust_title info = Ok item
    /\ dict_lookup (KStr "title") item
       = Some (if truthy is_live then _live_title title else title)
    /\ (forall k, key_eqb k (KStr "title") = false ->
          dict_lookup k item = dict_lookup k info).
Proof.
  intros Hl Ht. unfold SVTPlayIE_Extract._adjust_title, getitem.
  rewrite Hl. cbn [bind]. destruct (truthy is_live).
  - rewrite Ht. cbn [bind]. eexists. split; [reflexivity|]. split.
    + now rewrite dict_lookup_set, key_eqb_refl.
    + intros k Hk. now rewrite dict_lookup_set, Hk.
  - eexists. split; [reflexivity|]. split; trivial.
Qed.

Lemma adjust_title_not_empty (info item : dict) :
  _adjust_title info = Ok item -> info <> [] -> item <> [].
Proof.
  unfold SVTPlayIE_Extract._adjust_title. intros H Hne.
  inv_bind H. destruct (truthy a).
  - inv_bind H. apply Ok_inj in H. subst item. apply dict_set_not_empty.
  - apply Ok_inj in H. now subst.
Qed.

Lemma first_true_default (a b default : pyobj) :
  truthy default = true ->
  (if truthy (first_true [a; b] PNone) then first_true [a; b] PNone
   else default)
  = first_true [a; b] default.
Proof.
  intros Hd. cbn [first_true].
  destruct (truthy a) eqn:Ea; [now rewrite Ea|].
  destruct (truthy b) eqn:Eb; [now rewrite Eb|]. reflexivity.
Qed.

(** The item resolved by content id with no page at hand takes its title
    from the first true value of the API's [title], [episode] and
    [series], and from the content id when there is none; a live item
    gets that title in its live form.  Nothing else in the item changes. *)
Theorem title_fallback_by_video_id (video_id : string) (data info : dict)
    (calls : list call) :
  video_id <> EmptyString ->
  _download_json (SVTPlayIE_Extract.api_url video_id) = Ok (PDict data) ->
  _extract_video data video_id = Ok (info, calls) ->
  let title :=
    first_true [get info "title"; get info "episode"; get info "series"]
      (PStr video_id) in
  exists item,
    _extract_by_video_id video_id None = Ok (item, calls)
    /\ dict_lookup (KStr "title") item
       = Some (if truthy (SVTBaseIE.is_live_of data)
               then _live_title title else title)
    /\ (forall k, key_eqb k (KStr "title") = false ->
          dict_lookup k item = dict_lookup k info).
Proof.
  intros Hid Hd Hv. cbv zeta.
  destruct (extract_video_base_keys determine_ext int_or_none
              unified_timestamp _extract_m3u8_formats _extract_f4m_formats
              _extract_mpd_formats _sort_formats _ _ _ _ Hv) as [_ Hlive].
  assert (Htid : truthy (PStr video_id) = true).
  { destruct video_id; [congruence|reflexivity]. }
  unfold SVTPlayIE_Extract._extract_by_video_id.
  rewrite Hd. cbn [bind SVTBaseIE_untyped._extract_video]. rewrite Hv.
  cbn [bind first_true].
  destruct (truthy (get info "title")) eqn:Et.
  - cbn [bind].
    destruct (adjust_title_lookup info _ _ Hlive (truthy_get_lookup _ _ Et))
      as (item & -> & Htitle & Hother).
    cbn [bind]. exists item. repeat split; trivial.
  - unfold SVTPlayIE_Extract.fallback_title.
    rewrite !dict_get_skip_cons.
    change (dict_get info [] PNone true) with PNone.
    change (if truthy (get info "episode") then get info "episode"
            else if truthy (get info "series") then get info "series"
                 else PNone)
      with (first_true [get info "episode"; get info "series"] PNone).
    set (t0 := first_true [get info "episode"; get info "series"] PNone).
    assert (E : (title <- (if truthy t0 then Ok t0 else Ok t0) ;;
                 Ok (if truthy title then title else PStr video_id))
                = Ok (first_true [get info "episode"; get info "series"]
                        (PStr video_id))).
    { destruct (truthy t0) eqn:E0; cbn [bind];
        rewrite <- (first_true_default _ _ _ Htid); fold t0; now rewrite E0. }
    rewrite E. cbn [bind].
    set (t := first_true [get info "episode"; get info "series"]
                (PStr video_id)).
    destruct (adjust_title_lookup (dict_set (KStr "title") t info)
                (SVTBaseIE.is_live_of data) t) as (item & -> & Htitle & Hother).
    { rewrite dict_lookup_set. exact Hlive. }
    { now rewrite dict_lookup_set, key_eqb_refl. }
    cbn [bind]. exists item. split; [reflexivity|]. split; trivial.
    intros k Hk. now rewrite (Hother k Hk), dict_lookup_set, Hk.
Qed.

(** When the API item has no title, episode or series and a page is at
    hand, the title is the page's title (its [| suffix] removed), or the
    content id when that is empty; a page without a title makes the
    extraction raise. *)
Theorem title_from_page (video_id : string) (data info : dict)
    (calls : list call) (c : ascii) (page : string) :
  video_id <> EmptyString ->
  _download_json (SVTPlayIE_Extract.api_url video_id) = Ok (PDict data) ->
  _extract_video data video_id = Ok (info, calls) ->
  first_true [get info "title"; get info "episode"; get info "series"] PNone
  = PNone ->
  (forall e,
     page_title (String c page) = Raise e ->
     _extract_by_video_id video_id (Some (String c page)) = Raise e)
  /\ (forall t,
        page_title (String c page) = Ok t ->
        let title := if String.eqb t EmptyString then PStr video_id else PStr t in
        exists item,
          _extract_by_video_id video_id (Some (String c page)) = Ok (item, calls)
          /\ dict_lookup (KStr "title") item
             = Some (if truthy (SVTBaseIE.is_live_of data)
                     then _live_title title else title)).
Proof.
  intros Hid Hd Hv Hnone.
  destruct (extract_video_base_keys determine_ext int_or_none
              unified_timestamp _extract_m3u8_formats _extract_f4m_formats
              _extract_mpd_formats _sort_formats _ _ _ _ Hv) as [_ Hlive].
  cbn [first_true] in Hnone.
  destruct (truthy (get info "title")) eqn:Et;
    [rewrite Hnone in Et; discriminate|].
  destruct (truthy (get info "episode")) eqn:Ee;
    [rewrite Hnone in Ee; discriminate|].
  destruct (truthy (get info "series")) eqn:Es;
    [rewrite Hnone in Es; discriminate|].
  unfold SVTPlayIE_Extract._extract_by_video_id.
  rewrite Hd. cbn [bind SVTBaseIE_untyped._extract_video]. rewrite Hv.
  cbn [bind]. rewrite Et. unfold SVTPlayIE_Extract.fallback_title.
  rewrite !dict_get_skip_cons, Ee, Es.
  change (dict_get info [] PNone true) with PNone. cbn [truthy].
  split.
  - intros e ->. reflexivity.
  - intros t ->. cbv zeta. cbn [bind truthy].
    set (title := if negb (String.eqb t EmptyString) then PStr t
                  else PStr video_id).
    destruct (adjust_title_lookup (dict_set (KStr "title") title info)
                (SVTBaseIE.is_live_of data) title)
      as (item & -> & Htitle & _).
    { rewrite dict_lookup_set. exact Hlive. }
    { now rewrite dict_lookup_set, key_eqb_refl. }
    cbn [bind]. exists item. split; [reflexivity|]. rewrite Htitle.
    unfold title. destruct (String.eqb t EmptyString); reflexivity.
Qed.

(** ** The page flow of the play extractor *)

Lemma from_store_video_not_empty (data : pyobj) (video_id : string)
    (entry : key * pyobj) (more : dict) (item : dict * list call)
    (page_id : pyobj) :
  truthy data = true ->
  try_get data [fun x => getpath x SVTPlayIE_Extract.store_path] (Some is_dict)
  = PDict (entry :: more) ->
  from_store data video_id = Ok (item, page_id) ->
  fst item <> [].
Proof.
  intros Ht Hs. unfold SVTPlayIE_Extract.from_store. rewrite Ht, Hs.
  intros H. inv_bind H. apply Ok_inj in H. inversion H; subst.
  inv_bind Ha. destruct a as [info calls]. inv_bind Ha. inv_bind Ha.
  apply Ok_inj in Ha. subst item. cbn [fst].
  eapply adjust_title_not_empty; [exact Ha2|apply dict_set_not_empty].
Qed.

Section Other_endpoints.

Variable _download_json' : string -> result pyobj.
Variable _search_video_id' : string -> result string.
Variable page_title' : string -> result string.

(** When the page's store holds a video-info mapping, the item is built
    from the page alone: the id-based endpoint, the id patterns and the
    page title are not consulted, so the result is the same whatever they
    would answer. *)
Theorem store_video_needs_no_endpoint (url video_id webpage : string)
    (entry : key * pyobj) (more : dict) :
  _download_webpage url = Ok webpage ->
  truthy (embedded_data webpage) = true ->
  try_get (embedded_data webpage)
    [fun x => getpath x SVTPlayIE_Extract.store_path] (Some is_dict)
  = PDict (entry :: more) ->
  play_extract url video_id None
  = SVTPlayIE_Extract._real_extract determine_ext int_or_none
      unified_timestamp _extract_m3u8_formats _extract_f4m_formats
      _extract_mpd_formats _sort_formats _download_json' _download_webpage
      embedded_data _search_video_id' page_title' _og_search_thumbnail
      _live_title url video_id None.
Proof.
  intros Hw Ht Hs. unfold SVTPlayIE_Extract._real_extract.
  rewrite Hw. cbn [bind].
  destruct (from_store (embedded_data webpage) video_id)
    as [[item page_id]|e] eqn:E; [|reflexivity].
  cbn [bind].
  pose proof (from_store_video_not_empty _ _ _ _ _ _ Ht Hs E) as Hne.
  unfold SVTPlayIE_Extract.by_content_id.
  destruct (fst item); [congruence|reflexivity].
Qed.

End Other_endpoints.

(** A page without embedded data is resolved through the id patterns:
    when they find no id their error is raised, and when they find one
    the item is the one the id-based endpoint gives for it, with the page
    at hand for the title, its thumbnail backfilled from the page. *)
Theorem page_without_data_searches_id (url video_id webpage : string) :
  _download_webpage url = Ok webpage ->
  truthy (embedded_data webpage) = false ->
  (forall e,
     _search_video_id webpage = Raise e ->
     play_extract url video_id None = Raise e)
  /\ (forall id,
        _search_video_id webpage = Ok id ->
        play_extract url video_id None
        = match _extract_by_video_id id (Some webpage) with
          | Ok (info, calls) => Ok (backfill_thumbnail info webpage, calls)
          | Raise e => Raise e
          end).
Proof.
  intros Hw Ht. unfold SVTPlayIE_Extract._real_extract.
  rewrite Hw. cbn [bind]. unfold SVTPlayIE_Extract.from_store. rewrite Ht.
  cbn [bind SVTPlayIE_Extract.by_content_id fst]. split.
  - intros e ->. reflexivity.
  - intros id ->. cbn [bind].
    destruct (_extract_by_video_id id (Some webpage)) as [[info calls]|e];
      [|reflexivity].
    cbn [bind]. unfold SVTPlayIE.layer_video_page. rewrite Ht. reflexivity.
Qed.

(** When the page's store has no video but the page names a content id
    under [statistics.dataLake.content.id], that id is the one resolved:
    the id patterns are not consulted. *)
Theorem page_content_id_preferred (url video_id webpage : string)
    (c : ascii) (id : string) :
  let data := embedded_data webpage in
  _download_webpage url = Ok webpage ->
  truthy data = true ->
  truthy (try_get data [fun x => getpath x SVTPlayIE_Extract.store_path]
            (Some is_dict)) = false ->
  try_get data [fun x => getpath x SVTPlayIE_Extract.data_lake_path]
    (Some is_str) = PStr (String c id) ->
  play_extract url video_id None
  = match _extract_by_video_id (String c id) (Some webpage) with
    | Ok (info, calls) =>
        match layer_video_page data info with
        | Ok info' => Ok (backfill_thumbnail info' webpage, calls)
        | Raise e => Raise e
        end
    | Raise e => Raise e
    end.
Proof.
  cbv zeta. intros Hw Ht Hs Hid. unfold SVTPlayIE_Extract._real_extract.
  rewrite Hw. cbn [bind]. unfold SVTPlayIE_Extract.from_store.
  rewrite Ht, Hid.
  destruct (try_get (embedded_data webpage)
              [fun x => getpath x SVTPlayIE_Extract.store_path] (Some is_dict))
    as [| | | | |store]; try discriminate;
    try (cbn [bind SVTPlayIE_Extract.by_content_id fst];
         destruct (_extract_by_video_id (String c id) (Some webpage))
           as [[info calls]|e]; [|reflexivity];
         cbn [bind];
         destruct (layer_video_page (embedded_data webpage) info);
         reflexivity).
  destruct store as [|entry more]; [|discriminate].
  cbn [bind SVTPlayIE_Extract.by_content_id fst].
  destruct (_extract_by_video_id (String c id) (Some webpage))
    as [[info calls]|e]; [|reflexivity].
  cbn [bind].
  destruct (layer_video_page (embedded_data webpage) info); reflexivity.
Qed.


End Extractors_properties.

(** * The further properties at sample inputs *)


Lemma extract_video_item_keys_witness :
  exists info,
    Sample._extract_video Sample.video_live "svt1" = Ok (info, [HLS
      (PStr "http://cdn.example/master.m3u8?cc=1") "svt1" "mp4" "m3u8"
      (PStr "ios")])
    /\ dict_lookup (KStr "id") info = Some (PStr "svt1")
    /\ dict_lookup (KStr "is_live") info = Some (PBool true).
Proof.
  eexists. split; [reflexivity|].
  destruct (extract_video_item_keys Sample.determine_ext Sample.int_or_none
              Sample.unified_timestamp Sample._extract_m3u8_formats
              Sample._extract_f4m_formats Sample._extract_mpd_formats
              Sample._sort_formats Sample.video_live "svt1" _ _ eq_refl)
    as (Hid & Hlive & _).
  split; [exact Hid | exact Hlive].
Defined.


Lemma timestamp_and_duration_sources_witness :
  exists fields1 fields2,
    SVTBaseIE.metadata_fields Sample.int_or_none Sample_site.unified_timestamp
      Sample_site.video_dated = Ok fields1
    /\ dict_lookup (KStr "timestamp") fields1 = Some PNone
    /\ dict_lookup (KStr "duration") fields1 = Some (PInt 820)
    /\ SVTBaseIE.metadata_fields Sample.int_or_none
         Sample_site.unified_timestamp Sample_site.video_rights_dated
       = Ok fields2
    /\ dict_lookup (KStr "timestamp") fields2 = Some (PInt 1556064000).
Proof.
  eexists _, _.
  destruct (timestamp_and_duration_sources Sample.int_or_none
              Sample_site.unified_timestamp Sample_site.video_dated _ eq_refl)
    as [Ht Hd].
  destruct (timestamp_and_duration_sources Sample.int_or_none
              Sample_site.unified_timestamp Sample_site.video_rights_dated
              _ eq_refl) as [Ht' _].
  split; [reflexivity|]. split; [exact Ht|]. split; [exact Hd|].
  split; [reflexivity | exact Ht'].
Defined.


Lemma subtitle_map_invariant_witness :
  exists m,
    SVTBaseIE.extract_subtitles Sample.determine_ext Sample.video_subtitled
    = Ok m
    /\ distinct_languages m = true /\ Forall good_group m.
Proof.
  eexists. split; [reflexivity|].
  apply (subtitle_map_invariant Sample.determine_ext Sample.video_subtitled
           _ eq_refl).
Defined.

Lemma season_1_items_well_formed (season : pyobj) :
  In season Sample_site.seasons ->
  season_selected (Some "season-1") season = true ->
  Forall well_formed_item (season_items season).
Proof.
  intros [<- | [<- | [<- | []]]] Hsel; try discriminate Hsel.
  repeat (apply Forall_cons; [eexists _, _; split; reflexivity|]).
  apply Forall_nil.
Defined.

Lemma series_entries_in_order_witness :
  exists playlist,
    Sample_site.series_extract (PDict Sample_site.series_doc)
      (Some "season-1") = Ok playlist
    /\ dp_entries playlist = [forward_reference "a1"; forward_reference "a2"].
Proof.
  exact (series_entries_in_order Sample.compat_str Sample_site.series_doc
           (Some "season-1") Sample_site.seasons eq_refl
           season_1_items_well_formed).
Defined.

Lemma series_entries_are_forward_references_witness :
  exists playlist,
    Sample_site.series_extract (PDict Sample_site.series_doc)
      (Some "season-1") = Ok playlist
    /\ Forall proper_reference (dp_entries playlist).
Proof.
  eexists. split; [reflexivity|].
  apply (series_entries_are_forward_references Sample.compat_str
           (PDict Sample_site.series_doc) (Some "season-1") _ eq_refl).
Defined.

Lemma series_playlist_id_and_title_witness :
  exists playlist,
    Sample_site.series_extract (PDict Sample_site.series_doc)
      (Some "season-1") = Ok playlist
    /\ dp_id playlist = PStr "season-1"
    /\ (exists text, dp_title playlist = PStr text)
    /\ dp_description playlist = PStr "A shipping company".
Proof.
  eexists. split; [reflexivity|].
  destruct (series_playlist_id_and_title Sample.compat_str
              Sample_site.series_doc (Some "season-1") _ eq_refl)
    as [[Hid Htitle] Hdesc].
  split; [exact Hid|]. split; [exact Htitle | exact Hdesc].
Defined.

Lemma no_season_9 (season : pyobj) :
  In season Sample_site.seasons ->
  season_selected (Some "season-9") season = false.
Proof.
  intros [<- | [<- | [<- | []]]]; reflexivity.
Defined.

Lemma unknown_season_gives_empty_playlist_witness :
  exists playlist,
    Sample_site.series_extract (PDict Sample_site.series_doc)
      (Some "season-9") = Ok playlist
    /\ dp_entries playlist = []
    /\ dp_id playlist = PStr "season-9"
    /\ dp_title playlist = PStr "Rederiet - season-9".
Proof.
  exact (unknown_season_gives_empty_playlist Sample.compat_str
           Sample_site.series_doc "season-9" Sample_site.seasons
           ltac:(discriminate) eq_refl no_season_9).
Defined.

Lemma series_item_not_mapping_aborts_witness :
  Sample_site.series_extract (PDict Sample_site.series_doc) None
  = Raise (AttributeError "get").
Proof.
  apply (series_item_not_mapping_aborts Sample.compat_str
           Sample_site.series_doc None Sample_site.seasons
           Sample_site.season_2 (PStr "not an item") eq_refl).
  - simpl. tauto.
  - reflexivity.
  - simpl. tauto.
  - reflexivity.
Defined.

Lemma article_media_well_formed :
  Forall well_formed_node Sample_site.article_media.
Proof.
  repeat (apply Forall_cons;
          [eexists; split; [reflexivity|];
           first [ intros H; discriminate H
                 | intros _; eexists _, _; split; reflexivity ] |]).
  apply Forall_nil.
Defined.

Lemma article_body_well_formed :
  Forall well_formed_body_entry Sample_site.article_body.
Proof.
  repeat (apply Forall_cons;
          [split; [eexists; reflexivity|];
           eexists; split; [reflexivity|];
           first [ intros H; discriminate H
                 | intros _; eexists _, _; split; reflexivity ] |]).
  apply Forall_nil.
Defined.

Lemma page_entries_in_order_witness :
  Sample_site.article_extract (PDict Sample_site.article_good)
  = Ok (mk_playlist_result
          [forward_reference "jXvk42E"; forward_reference "jXvk42E";
           forward_reference "jXvk42E"]
          (Sample.str_or_none (PInt 24243746)) (PStr "Redo att fly")).
Proof.
  exact (page_entries_in_order Sample.compat_str Sample.str_or_none
           Sample.strip_or_none Sample_site.article_good
           Sample_site.article_media Sample_site.article_body
           eq_refl eq_refl article_media_well_formed article_body_well_formed).
Defined.


Lemma widget_item_title_and_id_witness :
  exists item,
    Sample_site.widget_extract "23991" "2900353" = Ok (item, [])
    /\ dict_lookup (KStr "title") item = Some (PStr "Stars joke around")
    /\ dict_lookup (KStr "id") item = Some (PStr "2900353").
Proof.
  destruct (widget_item_title_and_id Sample.determine_ext Sample.int_or_none
              Sample_site.unified_timestamp Sample._extract_m3u8_formats
              Sample._extract_f4m_formats Sample._extract_mpd_formats
              Sample._sort_formats Sample_site._download_json
              "23991" "2900353" (PDict Sample_site.widget_doc)
              (PStr "Stars joke around") Sample.video_direct _ _
              eq_refl eq_refl eq_refl eq_refl)
    as (item & E & Ht & Hid & _).
  exists item. split; [exact E|]. split; [exact Ht | exact Hid].
Defined.

Lemma widget_errors_witness :
  Sample_site.widget_extract "23991" "5219710"
  = Raise (GeoRestrictedError "This video is only available in Sweden" ["SE"]).
Proof.
  destruct (widget_errors Sample.determine_ext Sample.int_or_none
              Sample_site.unified_timestamp Sample._extract_m3u8_formats
              Sample._extract_f4m_formats Sample._extract_mpd_formats
              Sample._sort_formats Sample_site._download_json
              "23991" "5219710" Sample_site.widget_doc_blocked eq_refl)
    as (_ & Herr & _).
  exact (Herr (PDict Sample.video_blocked) _ eq_refl eq_refl).
Defined.

Lemma title_fallback_by_video_id_witness :
  exists item,
    Sample_site._extract_by_video_id "KyVERRZ" None = Ok (item, [])
    /\ dict_lookup (KStr "title") item
       = Some (PStr "Avsnitt 8 2019-04-24 10:00")
    /\ dict_lookup (KStr "id") item = Some (PStr "KyVERRZ").
Proof.
  destruct (title_fallback_by_video_id Sample.determine_ext Sample.int_or_none
              Sample_site.unified_timestamp Sample._extract_m3u8_formats
              Sample._extract_f4m_formats Sample._extract_mpd_formats
              Sample._sort_formats Sample_site._download_json
              Sample_site.page_title Sample_site._live_title
              "KyVERRZ" Sample_site.api_episode _ _
              ltac:(discriminate) eq_refl eq_refl)
    as (item & E & Ht & Hother).
  exists item. split; [exact E|]. split; [exact Ht|].
  rewrite (Hother (KStr "id") eq_refl). reflexivity.
Defined.

Lemma title_from_page_witness :
  (exists item,
     Sample_site._extract_by_video_id "jXvk42E" (Some "plain page")
     = Ok (item, [])
     /\ dict_lookup (KStr "title") item = Some (PStr "Plain title"))
  /\ Sample_site._extract_by_video_id "jXvk42E" (Some "bare page")
     = Raise (ExtractorError "Unable to extract OpenGraph title").
Proof.
  split.
  - destruct (proj2 (title_from_page Sample.determine_ext Sample.int_or_none
                Sample_site.unified_timestamp Sample._extract_m3u8_formats
                Sample._extract_f4m_formats Sample._extract_mpd_formats
                Sample._sort_formats Sample_site._download_json
                Sample_site.page_title Sample_site._live_title
                "jXvk42E" Sample_site.api_untitled _ _ "p"%char "lain page"
                ltac:(discriminate) eq_refl eq_refl eq_refl)
              "Plain title" eq_refl)
      as (item & E & Ht).
    exists item. split; [exact E | exact Ht].
  - exact (proj1 (title_from_page Sample.determine_ext Sample.int_or_none
                Sample_site.unified_timestamp Sample._extract_m3u8_formats
                Sample._extract_f4m_formats Sample._extract_mpd_formats
                Sample._sort_formats Sample_site._download_json
                Sample_site.page_title Sample_site._live_title
                "jXvk42E" Sample_site.api_untitled _ _ "b"%char "are page"
                ltac:(discriminate) eq_refl eq_refl eq_refl)
             _ eq_refl).
Defined.

Lemma store_video_needs_no_endpoint_witness :
  Sample_site.play_extract "https://www.svtplay.se/video/1/store" "1" None
  = SVTPlayIE_Extract._real_extract Sample.determine_ext Sample.int_or_none
      Sample_site.unified_timestamp Sample._extract_m3u8_formats
      Sample._extract_f4m_formats Sample._extract_mpd_formats
      Sample._sort_formats Sample_site._download_json_down
      Sample_site._download_webpage Sample_site.embedded_data
      Sample_site._search_video_id_none Sample_site.page_title_none
      Sample_site._og_search_thumbnail Sample_site._live_title
      "https://www.svtplay.se/video/1/store" "1" None.
Proof.
  exact (store_video_needs_no_endpoint Sample.determine_ext Sample.int_or_none
           Sample_site.unified_timestamp Sample._extract_m3u8_formats
           Sample._extract_f4m_formats Sample._extract_mpd_formats
           Sample._sort_formats Sample_site._download_json
           Sample_site._download_webpage Sample_site.embedded_data
           Sample_site._search_video_id Sample_site.page_title
           Sample_site._og_search_thumbnail Sample_site._live_title
           Sample_site._download_json_down Sample_site._search_video_id_none
           Sample_site.page_title_none
           "https://www.svtplay.se/video/1/store" "1" "store page"
           (KStr "title", PStr "Clip")
           [(KStr "videoReferences", PList [Sample.ref_mp4; Sample.ref_webm])]
           eq_refl eq_refl eq_refl).
Defined.

Lemma page_without_data_searches_id_witness :
  Sample_site.play_extract "https://www.svtplay.se/video/4/bare" "4" None
  = Raise (ExtractorError "Unable to extract video id")
  /\ exists item,
       Sample_site.play_extract "https://www.svtplay.se/video/3/plain" "3" None
       = Ok (item, [])
       /\ dict_lookup (KStr "id") item = Some (PStr "jXvk42E").
Proof.
  split.
  - exact (proj1 (page_without_data_searches_id Sample.determine_ext
             Sample.int_or_none Sample_site.unified_timestamp
             Sample._extract_m3u8_formats Sample._extract_f4m_formats
             Sample._extract_mpd_formats Sample._sort_formats
             Sample_site._download_json Sample_site._download_webpage
             Sample_site.embedded_data Sample_site._search_video_id
             Sample_site.page_title Sample_site._og_search_thumbnail
             Sample_site._live_title
             "https://www.svtplay.se/video/4/bare" "4" "bare page"
             eq_refl eq_refl) _ eq_refl).
  - eexists. unfold Sample_site.play_extract.
    rewrite (proj2 (page_without_data_searches_id Sample.determine_ext
             Sample.int_or_none Sample_site.unified_timestamp
             Sample._extract_m3u8_formats Sample._extract_f4m_formats
             Sample._extract_mpd_formats Sample._sort_formats
             Sample_site._download_json Sample_site._download_webpage
             Sample_site.embedded_data Sample_site._search_video_id
             Sample_site.page_title Sample_site._og_search_thumbnail
             Sample_site._live_title
             "https://www.svtplay.se/video/3/plain" "3" "plain page"
             eq_refl eq_refl) "jXvk42E" eq_refl).
    split; reflexivity.
Defined.

Lemma page_content_id_preferred_witness :
  exists item,
    Sample_site.play_extract "https://www.svtplay.se/video/2/lake" "2" None
    = Ok (item, [])
    /\ dict_lookup (KStr "id") item = Some (PStr "KyVERRZ").
Proof.
  eexists. unfold Sample_site.play_extract.
  rewrite (page_content_id_preferred Sample.determine_ext
             Sample.int_or_none Sample_site.unified_timestamp
             Sample._extract_m3u8_formats Sample._extract_f4m_formats
             Sample._extract_mpd_formats Sample._sort_formats
             Sample_site._download_json Sample_site._download_webpage
             Sample_site.embedded_data Sample_site._search_video_id
             Sample_site.page_title Sample_site._og_search_thumbnail
             Sample_site._live_title
             "https://www.svtplay.se/video/2/lake" "2" "lake page"
             "K"%char "yVERRZ" eq_refl eq_refl eq_refl eq_refl).
  split; reflexivity.
Defined.

